(** * seoAgent: the synthetic analytics generator, the query wrapper and the
      content API, embedded in Rocq

    The development follows the three Python sources:
    - [db.py]: the generator of the GSC, YouTube and GA tables ([Module Db]);
    - [agent.py]: [execute_bq_query] ([Module Agent]), [execute_all_queries]
      and [update_website_metadata] ([Module AgentTools]);
    - [hospital_website/app.py]: [update_metadata] and [homepage]
      ([Module App]).

    Python values are kept as the interpreter has them: [int] is [Z],
    [float] is a binary64 value (Rocq's primitive floats, whose operations
    are the IEEE ones CPython uses), [str] is [string], a [dict] read by key
    is a [gmap], a [dict] iterated in insertion order is an association
    list.  The random sources ([random], [numpy.random], [uuid], [faker])
    are an explicit tape of recorded draws, threaded through a state and
    exception monad. *)

From Stdlib Require Import ZArith QArith Lia.
From Stdlib Require Import Floats.PrimFloat Floats.FloatOps Floats.SpecFloat
  Floats.FloatAxioms.
From stdpp Require Import base option list sorting strings gmap.

Set Warnings "-inexact-float,-register-all".
Open Scope Z_scope.

(** ** Python exceptions and fallible pure operations *)

Inductive exn : Type :=
| OverflowError
| ValueError
| IndexError
| KeyError (k : string)
| AttributeError
| Exception (msg : string).

(** A pure operation either raises ([inl]) or returns ([inr]). *)
Definition result (A : Type) : Type := exn + A.

(** ** Python floats *)

Module PyFloat.

(** A finite binary64 value with sign [s], mantissa [m] and exponent [e]
    is the rational [SFnum s m e / SFden e]. *)
Definition SFnum (s : bool) (m : positive) (e : Z) : Z :=
  (if s then Z.neg m else Z.pos m) * 2 ^ Z.max 0 e.

Definition SFden (e : Z) : Z := 2 ^ Z.max 0 (- e).

(** The conversion the interpreter applies to the [int] operand of a
    mixed [int * float] product: the nearest binary64 value, ties to
    even; an [int] beyond the binary64 range raises. *)
Definition float_of_int (z : Z) : result float :=
  let f := SF2Prim (binary_normalize prec emax z 0 false) in
  if is_infinity f then inl OverflowError else inr f.

(** [int(x)] on a float: truncation toward zero; [int(inf)] raises
    [OverflowError], [int(nan)] raises [ValueError]. *)
Definition int_of_float (x : float) : result Z :=
  match Prim2SF x with
  | S754_zero _ => inr 0
  | S754_finite s m e => inr (Z.quot (SFnum s m e) (SFden e))
  | S754_infinity _ => inl OverflowError
  | S754_nan => inl ValueError
  end.

(** [math.floor(x)]: the greatest integer below or equal to [x]. *)
Definition floor (x : float) : result Z :=
  match Prim2SF x with
  | S754_zero _ => inr 0
  | S754_finite s m e => inr (SFnum s m e / SFden e)
  | S754_infinity _ => inl OverflowError
  | S754_nan => inl ValueError
  end.

(** [round(x)]: the nearest integer, a tie going to the even one. *)
Definition round (x : float) : result Z :=
  match Prim2SF x with
  | S754_zero _ => inr 0
  | S754_finite s m e =>
      let q := SFnum s m e / SFden e in
      let r := SFnum s m e mod SFden e in
      inr (if 2 * r <? SFden e then q
           else if SFden e <? 2 * r then q + 1
           else if Z.even q then q else q + 1)
  | S754_infinity _ => inl OverflowError
  | S754_nan => inl ValueError
  end.

(** [n * x] and [x * n] with [n] an [int] and [x] a [float]. *)
Definition int_mul_float (n : Z) (x : float) : result float :=
  match float_of_int n with
  | inl e => inl e
  | inr f => inr (f * x)%float
  end.

Definition float_mul_int (x : float) (n : Z) : result float :=
  match float_of_int n with
  | inl e => inl e
  | inr f => inr (x * f)%float
  end.

End PyFloat.

(** ** [datetime] and [timedelta] over whole seconds

    A [datetime] is the number of seconds since 0001-01-01T00:00:00, a
    date is the number of days since 0001-01-01.  [strftime] and
    [isoformat] only render these values; the rows keep the value that is
    rendered. *)

Module PyTime.

Definition datetime : Type := Z.

Definition days_before_year (y : Z) : Z :=
  (y - 1) * 365 + (y - 1) / 4 - (y - 1) / 100 + (y - 1) / 400.

(** [datetime(y, 1, 1)]. *)
Definition new_year (y : Z) : datetime := days_before_year y * 86400.

(** The last whole second of [datetime.max] (9999-12-31T23:59:59). *)
Definition max_second : Z := days_before_year 10000 * 86400 - 1.

(** [timedelta(days=d, seconds=s)]: more than 999999999 days raise. *)
Definition timedelta (d s : Z) : result Z :=
  let total := d * 86400 + s in
  if (Z.abs (total / 86400) <=? 999999999) then inr total
  else inl OverflowError.

(** [dt + delta]: a result outside [datetime.min, datetime.max] raises. *)
Definition add (dt : datetime) (delta : result Z) : result datetime :=
  match delta with
  | inl e => inl e
  | inr s =>
      if (0 <=? dt + s) && (dt + s <=? max_second) then inr (dt + s)
      else inl OverflowError
  end.

(** [int((a - b).total_seconds())]. *)
Definition seconds_between (a b : datetime) : Z := a - b.

(** The date rendered by [strftime('%Y-%m-%d')], as a day number. *)
Definition date_of (dt : datetime) : Z := dt / 86400.

End PyTime.

(** ** The random sources as a tape of draws

    Every call to a random source consumes one recorded draw.  A draw
    records the call (its kind and arguments) and the value it returned;
    a tape whose next draw does not answer the call made, or records a
    value the call cannot return, is not an outcome of the program. *)

Inductive draw : Type :=
| DRandint (lo hi v : Z)            (* random.randint(lo, hi) = v *)
| DRandom (v : float)               (* random.random() = v *)
| DNormal (mu sigma : Q) (v : float) (* np.random.normal(mu, sigma) = v *)
| DChoice (n i : nat)               (* random.choice(seq) picked seq[i], len(seq) = n *)
| DUuid (s : string).               (* uuid.uuid4() / fake.uuid4() *)

Definition tape : Type := list draw.

Inductive res (A : Type) : Type :=
| Ok (a : A) (rest : tape)   (* returned [a], the draws [rest] are left *)
| Raised (e : exn)           (* a Python exception escaped *)
| Stuck.                     (* the tape is not an outcome of this program *)
Arguments Ok {A} a rest.
Arguments Raised {A} e.
Arguments Stuck {A}.

Definition Gen (A : Type) : Type := tape -> res A.

Definition gret {A} (a : A) : Gen A := fun t => Ok a t.

Definition gbind {A B} (m : Gen A) (k : A -> Gen B) : Gen B :=
  fun t => match m t with
           | Ok a t' => k a t'
           | Raised e => Raised e
           | Stuck => Stuck
           end.

#[global] Instance Gen_ret : MRet Gen := @gret.
#[global] Instance Gen_bind : MBind Gen := fun A B k m => gbind m k.

(** A pure fallible operation inside a generator. *)
Definition lift {A} (r : result A) : Gen A :=
  fun t => match r with inl e => Raised e | inr a => Ok a t end.

Module Random.

(** [random.randint(lo, hi)]: an integer [v] with [lo <= v <= hi]. *)
Definition randint (lo hi : Z) : Gen Z := fun t =>
  match t with
  | DRandint lo' hi' v :: t' =>
      if (lo' =? lo) && (hi' =? hi) && (lo <=? v) && (v <=? hi)
      then Ok v t' else Stuck
  | _ => Stuck
  end.

(** [random.random()]: a float [v] with [0.0 <= v < 1.0]. *)
Definition random : Gen float := fun t =>
  match t with
  | DRandom v :: t' =>
      if ((0 <=? v) && (v <? 1))%float then Ok v t' else Stuck
  | _ => Stuck
  end.

(** The rational a finite float stands for. *)
Definition rational (v : float) : option Q :=
  match Prim2SF v with
  | S754_zero _ => Some 0%Q
  | S754_finite s m e =>
      Some (Qmake (PyFloat.SFnum s m e) (Z.to_pos (PyFloat.SFden e)))
  | _ => None
  end.

(** How far, in standard deviations, a draw of [np.random.normal] can lie
    from the mean.  The function returns [mu + sigma * g] with [g] from
    the polar method on two 53-bit uniforms: [g = x * sqrt(-2 ln r2 / r2)]
    with [x] one of two multiples [x1], [x2] of [2^-52] and
    [0 < r2 = x1^2 + x2^2 < 1], so [|g| <= sqrt(-2 ln 2^-104)
    = sqrt(208 ln 2) < 12.01]. *)
Definition gauss_bound : Q := 12.01.

Definition in_reach (mu sigma : Q) (v : float) : bool :=
  match rational v with
  | Some q =>
      Qle_bool (mu - gauss_bound * sigma) q && Qle_bool q (mu + gauss_bound * sigma)
  | None => false
  end.

(** [np.random.normal(mu, sigma)]: a finite float within [gauss_bound]
    standard deviations of the mean; the draw records [mu] and [sigma] as
    the call passed them. *)
Definition normal (mu sigma : Q) : Gen float := fun t =>
  match t with
  | DNormal mu' sigma' v :: t' =>
      if Qeq_bool mu' mu && Qeq_bool sigma' sigma && is_finite v
         && in_reach mu sigma v
      then Ok v t' else Stuck
  | _ => Stuck
  end.

(** [random.choice(seq)]: an element of [seq]; [IndexError] on an empty
    sequence (no draw is consumed then). *)
Definition choice {A} (seq : list A) : Gen A := fun t =>
  match seq with
  | [] => Raised IndexError
  | _ :: _ =>
      match t with
      | DChoice n i :: t' =>
          if (n =? length seq)%nat then
            match seq !! i with Some a => Ok a t' | None => Stuck end
          else Stuck
      | _ => Stuck
      end
  end.

(** [uuid.uuid4()] and [fake.uuid4()], rendered as text. *)
Definition uuid4 : Gen string := fun t =>
  match t with
  | DUuid s :: t' => Ok s t'
  | _ => Stuck
  end.

End Random.

(** ** Loops

    [for x in xs: body] over a state [s] that the body updates. *)
Fixpoint for_each {B S} (xs : list B) (body : B -> S -> Gen S) (s : S) : Gen S :=
  match xs with
  | [] => gret s
  | x :: xs' => s' ← body x s; for_each xs' body s'
  end.

(** [range(n)]: [0, 1, ..., n-1], empty when [n <= 0]. *)
Definition range (n : Z) : list Z := Z.of_nat <$> seq 0 (Z.to_nat n).

(** [sub in s] on strings. *)
Fixpoint contains (sub s : string) : bool :=
  String.prefix sub s ||
  match s with
  | EmptyString => false
  | String _ s' => contains sub s'
  end.

(** [d.keys()] and [d[k]] on a dict kept in insertion order. *)
Definition keys {V} (d : list (string * V)) : list string := fst <$> d.

Fixpoint getitem {V} (d : list (string * V)) (k : string) : result V :=
  match d with
  | [] => inl (KeyError k)
  | (k', v) :: d' => if String.eqb k' k then inr v else getitem d' k
  end.

(** * db.py: the synthetic analytics generator *)

Module Db.
Import PyFloat PyTime Random.

(** ** Configuration and data definitions *)

Record video_meta : Type := {
  title : string;
  duration_sec : Z;
  avg_view_sec : Z
}.

(** The number of days and the three reference tables; the script binds
    them as module globals, the generators below read them from [cfg]. *)
Record config : Type := {
  NUM_DAYS : Z;
  GSC_QUERIES : list (string * string);
  YT_VIDEOS : list (string * video_meta);
  PAGE_MAP : list (string * string)
}.

Definition START_DATE : datetime := new_year 2025.
Definition HOSPITAL_HOSTNAME : string := "www.apollohospitals.com".
Definition PRIMARY_CITY : string := "Chennai".
Definition PRIMARY_REGION : string := "Tamil Nadu".
Definition PRIMARY_COUNTRY_CODE : string := "IN".
Definition PRIMARY_COUNTRY_NAME : string := "India".

(** The configuration written in the script. *)
Definition script_config : config := {|
  NUM_DAYS := 90;
  GSC_QUERIES := [
    ("knee pain", "/blog/knee-pain-causes-and-treatments/");
    ("best orthopedic surgeon in chennai", "/chennai/centres-of-excellence/orthopedics/");
    ("hip replacement options", "/chennai/centres-of-excellence/orthopedics/hip-replacement");
    ("sports injury clinic chennai", "/chennai/centres-of-excellence/orthopedics/sports-medicine");
    ("shoulder surgery recovery time", "/blog/shoulder-surgery-recovery-guide/");
    ("apollo chennai appointment", "/chennai/patients/appointments");
    ("best cardiologist in chennai", "/chennai/centres-of-excellence/cardiology/");
    ("heart attack symptoms", "/blog/understanding-heart-attack-symptoms/");
    ("maternity packages chennai", "/chennai/centres-of-excellence/maternity/packages")
  ];
  YT_VIDEOS := [
    ("yt_apollo_ortho_team_01",
     {| title := "Meet Our Orthopedic Team - Apollo Chennai";
        duration_sec := 180; avg_view_sec := 30 |});
    ("yt_apollo_cardio_proc_02",
     {| title := "What to Expect During an Angioplasty";
        duration_sec := 240; avg_view_sec := 90 |});
    ("yt_apollo_maternity_tour_03",
     {| title := "Virtual Tour of Apollo Maternity Ward Chennai";
        duration_sec := 210; avg_view_sec := 120 |})
  ];
  PAGE_MAP := [
    ("/", "Homepage | Apollo Hospitals");
    ("/chennai/centres-of-excellence/orthopedics/", "Best Orthopedic Hospital in Chennai | Apollo");
    ("/blog/knee-pain-causes-and-treatments/", "Knee Pain Causes & Treatments");
    ("/doctors/chennai/dr-aravind-kumar", "Dr. Aravind Kumar - Orthopedic Surgeon");
    ("/chennai/patients/appointments", "Book an Appointment | Apollo Chennai");
    ("/chennai/centres-of-excellence/cardiology/", "Best Cardiology Hospital in Chennai | Apollo");
    ("/blog/understanding-heart-attack-symptoms/", "Understanding Heart Attack Symptoms");
    ("/chennai/centres-of-excellence/maternity/packages", "Maternity Packages at Apollo Chennai")
  ]
|}.

(** [START_DATE + timedelta(days=day)]. *)
Definition day_start (day : Z) : result datetime :=
  add START_DATE (timedelta day 0).

(** ** 1. GSC performance rows *)

Module Gsc.
Record row : Type := {
  partition_date : Z;
  query : string;
  page_url : string;
  country : string;
  device : string;
  clicks : Z;
  impressions : Z;
  sum_position : Z
}.
End Gsc.

(** The body of the innermost loop of pass 1, up to the row it appends. *)
Definition gsc_row (current_date : datetime) (query page device : string)
  : Gen Gsc.row :=
  impressions ← (if negb (contains "best" query) then randint 50 8000
                 else randint 500 10000);
  ctr ← (if String.eqb query "shoulder surgery recovery time"
         then normal 0.005 0.001
         else normal 0.08 0.03);
  product ← lift (int_mul_float impressions ctr);
  truncated ← lift (int_of_float product);
  let clicks := Z.max 0 truncated in
  avg_position ← (if contains "best" query then normal 3.5 1.5
                  else normal 8 4);
  weighted ← lift (float_mul_int avg_position impressions);
  sum_position ← lift (int_of_float weighted);
  mret {| Gsc.partition_date := date_of current_date;
          Gsc.query := query;
          Gsc.page_url := "https://" +:+ HOSPITAL_HOSTNAME +:+ page;
          Gsc.country := PRIMARY_COUNTRY_CODE;
          Gsc.device := device;
          Gsc.clicks := clicks;
          Gsc.impressions := impressions;
          Gsc.sum_position := sum_position |}.

Definition gsc_data (cfg : config) : Gen (list Gsc.row) :=
  for_each (range (NUM_DAYS cfg)) (fun day gsc_data =>
    current_date ← lift (day_start day);
    for_each (GSC_QUERIES cfg) (fun '(query, page) gsc_data =>
      for_each ["MOBILE"; "DESKTOP"] (fun device gsc_data =>
        row ← gsc_row current_date query page device;
        mret (gsc_data ++ [row])) gsc_data) gsc_data) [].

(** ** 2. YouTube analytics rows *)

Module Yt.
Record row : Type := {
  partition_date : Z;
  external_video_id : string;
  video_title : string;
  country_code : string;
  age_group : string;
  gender : string;
  device_type : string;
  traffic_source_type : string;
  views : Z;
  watch_time_msec : Z;
  potential_watch_time_msec : Z;
  likes_added : Z;
  shares : Z;
  comments_added : Z;
  subscribers_gained : Z
}.
End Yt.

(** [int(views * np.random.normal(mu, sigma))]. *)
Definition noisy_count (views : Z) (mu sigma : Q) : Gen Z :=
  rate ← normal mu sigma;
  product ← lift (int_mul_float views rate);
  lift (int_of_float product).

Definition yt_row (current_date : datetime) (video_id : string)
    (video_meta : video_meta) : Gen Yt.row :=
  views ← randint 50 1500;
  let watch_time_msec := views * avg_view_sec video_meta * 1000 in
  let potential_watch_time_msec := views * duration_sec video_meta * 1000 in
  age_group ← choice ["25-34"; "35-44"; "45-54"; "55-64"];
  gender ← choice ["MALE"; "FEMALE"];
  device_type ← choice ["MOBILE"; "DESKTOP"; "TABLET"];
  traffic_source_type ← choice ["YT_SEARCH"; "YT_RELATED"; "SUBSCRIBER"; "EXT_URL"];
  likes_added ← noisy_count views 0.02 0.005;
  shares ← noisy_count views 0.005 0.002;
  comments_added ← noisy_count views 0.002 0.001;
  subscribers_gained ← noisy_count views 0.001 0.0005;
  mret {| Yt.partition_date := date_of current_date;
          Yt.external_video_id := video_id;
          Yt.video_title := title video_meta;
          Yt.country_code := PRIMARY_COUNTRY_CODE;
          Yt.age_group := age_group;
          Yt.gender := gender;
          Yt.device_type := device_type;
          Yt.traffic_source_type := traffic_source_type;
          Yt.views := views;
          Yt.watch_time_msec := watch_time_msec;
          Yt.potential_watch_time_msec := potential_watch_time_msec;
          Yt.likes_added := likes_added;
          Yt.shares := shares;
          Yt.comments_added := comments_added;
          Yt.subscribers_gained := subscribers_gained |}.

Definition yt_data (cfg : config) : Gen (list Yt.row) :=
  for_each (range (NUM_DAYS cfg)) (fun day yt_data =>
    current_date ← lift (day_start day);
    for_each (YT_VIDEOS cfg) (fun '(video_id, video_meta) yt_data =>
      row ← yt_row current_date video_id video_meta;
      mret (yt_data ++ [row])) yt_data) [].

(** ** 3. GA session rows *)

Module Ga.
Inductive hit_type : Type := PAGE | EVENT.

#[global] Instance hit_type_eq_dec : EqDecision hit_type.
Proof. solve_decision. Defined.

Record page_info : Type := {
  page_path : string;
  page_title : string;
  hostname : string
}.

Record event : Type := {
  event_category : string;
  event_action : string;
  event_label : string
}.

Record hit : Type := {
  hit_number : Z;
  hit_time : datetime;
  type : hit_type;
  page : option page_info;
  event_info : option event
}.

Record geo_info : Type := {
  geo_country : string;
  region : string;
  city : string
}.

Record traffic : Type := {
  source : string;
  medium : string;
  campaign : string
}.

Record totals_info : Type := {
  pageviews : Z;
  time_on_site_seconds : Z;
  bounces : Z
}.

(** The nested columns are kept as values; [json.dumps] renders them. *)
Record row : Type := {
  partition_date : Z;
  session_id : string;
  user_id : string;
  session_start_time : datetime;
  device_category : string;
  browser : string;
  operating_system : string;
  geo : geo_info;
  traffic_source : traffic;
  totals : totals_info;
  hits : list hit
}.
End Ga.

Definition page_hit (n : Z) (time : datetime) (page_path page_title : string)
  : Ga.hit :=
  {| Ga.hit_number := n; Ga.hit_time := time; Ga.type := Ga.PAGE;
     Ga.page := Some {| Ga.page_path := page_path;
                        Ga.page_title := page_title;
                        Ga.hostname := HOSPITAL_HOSTNAME |};
     Ga.event_info := None |}.

Definition conversion_hit (n : Z) (time : datetime) : Ga.hit :=
  {| Ga.hit_number := n; Ga.hit_time := time; Ga.type := Ga.EVENT;
     Ga.page := None;
     Ga.event_info := Some {| Ga.event_category := "Conversion";
                              Ga.event_action := "Request Appointment";
                              Ga.event_label := "Ortho Page" |} |}.

(** [random.choice(list(PAGE_MAP.keys()))] followed by [PAGE_MAP[page_path]]. *)
Definition pick_page (cfg : config) : Gen (string * string) :=
  page_path ← choice (keys (PAGE_MAP cfg));
  page_title ← lift (getitem (PAGE_MAP cfg) page_path);
  mret (page_path, page_title).

(** The traffic source logic: the roll, then source and medium. *)
Definition pick_traffic : Gen (string * string) :=
  traffic_source_roll ← random;
  if (traffic_source_roll <? 0.6)%float then mret ("google", "organic")
  else if (traffic_source_roll <? 0.8)%float then mret ("(direct)", "(none)")
  else if (traffic_source_roll <? 0.9)%float then
    source ← choice ["youtube.com"; "facebook.com"];
    mret (source, "referral")
  else mret ("google", "cpc").

(** The body of [for i in range(num_additional_hits)], over the two
    variables it updates: [hits] and [last_hit_time]. *)
Definition additional_hit (cfg : config) (i : Z)
    (st : list Ga.hit * datetime) : Gen (list Ga.hit * datetime) :=
  let '(hits, last_hit_time) := st in
  seconds ← randint 30 120;
  hit_time ← lift (add last_hit_time (timedelta 0 seconds));
  '(page_path, page_title) ← pick_page cfg;
  mret (hits ++ [page_hit (i + 2) hit_time page_path page_title], hit_time).

(** [if random.random() < 0.2: ...], the optional conversion event. *)
Definition maybe_conversion (st : list Ga.hit * datetime)
  : Gen (list Ga.hit * datetime) :=
  let '(hits, last_hit_time) := st in
  roll ← random;
  if (roll <? 0.2)%float then
    seconds ← randint 10 30;
    hit_time ← lift (add last_hit_time (timedelta 0 seconds));
    mret (hits ++ [conversion_hit (Z.of_nat (length hits) + 1) hit_time],
          hit_time)
  else mret (hits, last_hit_time).

(** The user journey: the hits, the bounce flag and the time on site. *)
Definition journey (cfg : config) (session_start_time : datetime)
  : Gen (list Ga.hit * bool * Z) :=
  '(page_path, page_title) ← pick_page cfg;
  let hits := [page_hit 1 session_start_time page_path page_title] in
  roll ← random;
  let is_bounce := (roll <? 0.65)%float in
  if negb is_bounce then
    num_additional_hits ← randint 1 4;
    st ← for_each (range num_additional_hits) (additional_hit cfg)
           (hits, session_start_time);
    '(hits, last_hit_time) ← maybe_conversion st;
    mret (hits, is_bounce, seconds_between last_hit_time session_start_time)
  else
    time_on_site ← randint 5 45;
    mret (hits, is_bounce, time_on_site).

(** The body of [for _ in range(num_sessions_today)], up to the row. *)
Definition ga_session (cfg : config) (current_date : datetime) : Gen Ga.row :=
  seconds ← randint 0 86399;
  session_start_time ← lift (add current_date (timedelta 0 seconds));
  user_id ← uuid4;
  session_id ← uuid4;
  '(source, medium) ← pick_traffic;
  '(hits, is_bounce, time_on_site) ← journey cfg session_start_time;
  device_category ← choice ["mobile"; "desktop"; "tablet"];
  browser ← choice ["Chrome"; "Safari"; "Firefox"; "Edge"];
  operating_system ← choice ["Android"; "iOS"; "Windows"; "MacOS"];
  city ← choice [PRIMARY_CITY; "Coimbatore"; "Madurai"];
  mret {| Ga.partition_date := date_of current_date;
          Ga.session_id := session_id;
          Ga.user_id := user_id;
          Ga.session_start_time := session_start_time;
          Ga.device_category := device_category;
          Ga.browser := browser;
          Ga.operating_system := operating_system;
          Ga.geo := {| Ga.geo_country := PRIMARY_COUNTRY_NAME;
                       Ga.region := PRIMARY_REGION;
                       Ga.city := city |};
          Ga.traffic_source := {| Ga.source := source;
                                  Ga.medium := medium;
                                  Ga.campaign := "(not set)" |};
          Ga.totals :=
            {| Ga.pageviews :=
                 Z.of_nat (length (filter (fun h => Ga.type h = Ga.PAGE) hits));
               Ga.time_on_site_seconds := time_on_site;
               Ga.bounces := if (is_bounce : bool) then 1 else 0 |};
          Ga.hits := hits |}.

Definition ga_sessions_data (cfg : config) : Gen (list Ga.row) :=
  for_each (range (NUM_DAYS cfg)) (fun day ga_sessions_data =>
    current_date ← lift (day_start day);
    num_sessions_today ← randint 200 1000;
    for_each (range num_sessions_today) (fun _ ga_sessions_data =>
      row ← ga_session cfg current_date;
      mret (ga_sessions_data ++ [row])) ga_sessions_data) [].

(** The whole script: the three passes in order, each table complete
    before the next pass starts. *)
Definition generate (cfg : config)
  : Gen (list Gsc.row * list Yt.row * list Ga.row) :=
  gsc ← gsc_data cfg;
  yt ← yt_data cfg;
  ga ← ga_sessions_data cfg;
  mret (gsc, yt, ga).

End Db.

(** * agent.py: the query-execution boundary *)

Module Agent.

Section WithValues.
(** The values a BigQuery row holds. *)
Context {V : Type}.

(** A [bigquery.Row]: its (column, value) items, in column order. *)
Definition bq_row : Type := list (string * V).

(** The BigQuery client: [bq_client.query(query).result()] either yields
    the rows or raises an [Exception] [e]; [inl] holds [str(e)]. *)
Definition client : Type := string -> string + list bq_row.

(** What [execute_bq_query] returns: the list of row dicts, or the dict
    [{"error": message}]. *)
Inductive reply : Type :=
| Rows (rows : list (gmap string V))
| ErrorDict (message : string).

(** [bq_client] is [None] when the module could not create the client. *)
Definition execute_bq_query (bq_client : option client) (query : string)
  : result reply :=
  match bq_client with
  | None => inl (Exception "BigQuery client is not available.")
  | Some c =>
      match c query with
      | inr results => inr (Rows ((fun row => list_to_map row) <$> results))
      | inl message => inr (ErrorDict message)
      end
  end.
End WithValues.

End Agent.

(** * hospital_website/app.py: the content API *)

Module App.

(** A parsed JSON document, as [request.get_json()] returns it. *)
Inductive json : Type :=
| JNull
| JBool (b : bool)
| JInt (z : Z)
| JFloat (x : float)
| JStr (s : string)
| JArr (items : list json)
| JObj (fields : gmap string json).

#[global] Instance json_inhabited : Inhabited json := populate JNull.

(** Truth value of a parsed document ([not data] is its negation). *)
Definition truthy (data : json) : bool :=
  match data with
  | JNull => false
  | JBool b => b
  | JInt z => negb (z =? 0)
  | JFloat x => negb (x =? 0)%float
  | JStr s => negb (String.eqb s "")
  | JArr items => negb (length items =? 0)%nat
  | JObj fields => negb (size fields =? 0)%nat
  end.

(** A Flask response: the JSON body and the status code. *)
Record response : Type := {
  body : json;
  status_code : Z
}.

Definition jsonify (fields : list (string * string)) : json :=
  JObj (list_to_map (prod_map id JStr <$> fields)).

Definition WEBSITE_METADATA : gmap string json :=
  list_to_map [
    ("title", JStr "Default Title | Apollo Hospitals");
    ("description", JStr "This is the default description.");
    ("page_h1", JStr "Best Orthopedics Hospital in Chennai");
    ("page_paragraph", JStr "The Department of Orthopaedics at Apollo Hospitals, Chennai is renowned for delivering advanced Orthopaedics care.")
  ].

(** [data.get(key, fallback)]; only a dict has [get]. *)
Definition get (data : json) (key : string) (fallback : json) : result json :=
  match data with
  | JObj fields => inr (default fallback (fields !! key))
  | _ => inl AttributeError
  end.

(** [store[key]]. *)
Definition read (store : gmap string json) (key : string) : result json :=
  match store !! key with
  | Some v => inr v
  | None => inl (KeyError key)
  end.

(** [store[key] = data.get(key, store[key])]: the statement either
    raises, leaving the store as it is, or assigns. *)
Definition assign_field (data : json) (key : string)
    (st : result unit * gmap string json) : result unit * gmap string json :=
  match st with
  | (inl e, store) => (inl e, store)
  | (inr _, store) =>
      match read store key with
      | inl e => (inl e, store)
      | inr old =>
          match get data key old with
          | inl e => (inl e, store)
          | inr v => (inr tt, <[key := v]> store)
          end
      end
  end.

(** The POST handler of [/update-metadata]: the response (or the
    exception that escapes to the framework) and the store afterwards. *)
Definition update_metadata (data : json) (store : gmap string json)
  : result response * gmap string json :=
  if negb (truthy data) then
    (inr {| body := jsonify [("status", "error"); ("message", "Missing JSON payload")];
            status_code := 400 |}, store)
  else
    let st := (inr tt, store) in
    let st := assign_field data "title" st in
    let st := assign_field data "description" st in
    let st := assign_field data "page_h1" st in
    let st := assign_field data "page_paragraph" st in
    match st with
    | (inl e, store') => (inl e, store')
    | (inr _, store') =>
        (inr {| body := jsonify [("status", "success"); ("message", "Website content updated.")];
                status_code := 200 |}, store')
    end.

(** The four content fields. *)
Definition content_fields : list string :=
  ["title"; "description"; "page_h1"; "page_paragraph"].

(** The GET handler of [/]: the four values handed to the template. *)
Definition homepage (store : gmap string json) : result (list json) :=
  match read store "title", read store "description",
        read store "page_h1", read store "page_paragraph" with
  | inr t, inr d, inr h, inr p => inr [t; d; h; p]
  | inl e, _, _, _ | _, inl e, _, _ | _, _, inl e, _ | _, _, _, inl e => inl e
  end.

End App.

(** * agent.py: the two tools built on the boundaries *)

Module AgentTools.
Import Agent App.

Section WithValues.
Context {V : Type}.

(** [str(e)], as the f-string of an [except] handler renders [e]. *)
Variable str : exn -> string.

(** The argument of [execute_all_queries]: a list, or any other value. *)
Inductive queries_arg : Type :=
| QueryList (queries : list string)
| NotAList.

(** What [execute_all_queries] returns: the dict of the three results, or
    the dict [{"error": message}]. *)
Inductive tool_reply : Type :=
| Results (ga_results gsc_results yt_results : @reply V)
| ToolError (message : string).

(** The [try] block: the three calls in order, the first exception ends it. *)
Definition run_three (bq_client : option (@client V))
    (ga_query gsc_query yt_query : string) : result tool_reply :=
  match execute_bq_query bq_client ga_query with
  | inl e => inl e
  | inr ga_results =>
      match execute_bq_query bq_client gsc_query with
      | inl e => inl e
      | inr gsc_results =>
          match execute_bq_query bq_client yt_query with
          | inl e => inl e
          | inr yt_results => inr (Results ga_results gsc_results yt_results)
          end
      end
  end.

Definition execute_all_queries (bq_client : option (@client V))
    (queries : queries_arg) : result tool_reply :=
  match queries with
  | QueryList [ga_query; gsc_query; yt_query] =>
      match run_three bq_client ga_query gsc_query yt_query with
      | inr results => inr results
      | inl e => inr (ToolError ("Tool failed during query execution: " +:+ str e))
      end
  | _ => inr (ToolError "Tool error: Input must be a list of exactly three query strings.")
  end.

(** What one query gets from a client: the rows as dicts, or the error
    dict of the failure. *)
Definition answer (c : @client V) (query : string) : @reply V :=
  match c query with
  | inr results => Rows ((fun row => list_to_map row) <$> results)
  | inl message => ErrorDict message
  end.

End WithValues.

(** [str] on the exceptions of this development that carry a message. *)
Definition str_message (e : exn) : string :=
  match e with
  | Exception msg => msg
  | _ => ""
  end.

(** What [response.json()] does: it returns the parsed body, raises an
    exception of the [RequestException] family, or raises another one. *)
Inductive json_outcome : Type :=
| JsonValue (v : json)
| JsonRequestError (message : string)
| JsonOtherError (e : exn).

(** A [requests.Response], by the two methods the tool calls:
    [raise_for_status()] raises an [HTTPError] [e] ([Some (str e)]) or
    returns; [json()] as above. *)
Record http_response : Type := {
  raise_for_status : option string;
  response_json : json_outcome
}.

(** [requests.post(url, json=payload)]: the response, or [inl (str e)] for
    the [RequestException] [e] it raises. *)
Definition transport : Type := string -> json -> string + http_response.

Definition service_url : string :=
  "https://apollo-mock-web-223582690079.us-central1.run.app/update-metadata".

Definition payload (title description page_h1 page_paragraph : string) : json :=
  JObj (list_to_map [("title", JStr title); ("description", JStr description);
                     ("page_h1", JStr page_h1);
                     ("page_paragraph", JStr page_paragraph)]).

(** The dict of the [except] branch. *)
Definition api_call_failed (message : string) : json :=
  JObj (list_to_map [("status", JStr "error");
                     ("message", JStr ("API call failed: " +:+ message))]).

Definition update_website_metadata (post : transport)
    (title description page_h1 page_paragraph : string) : result json :=
  match post service_url (payload title description page_h1 page_paragraph) with
  | inl message => inr (api_call_failed message)
  | inr response =>
      match raise_for_status response with
      | Some message => inr (api_call_failed message)
      | None =>
          match response_json response with
          | JsonValue v => inr v
          | JsonRequestError message => inr (api_call_failed message)
          | JsonOtherError e => inl e
          end
      end
  end.

(** A transport that hands a request to the content API over [store] and
    brings its 200 response back. *)
Definition delivers (post : transport) (store : gmap string json) : Prop :=
  forall data r store',
    update_metadata data store = (inr r, store') ->
    status_code r = 200 ->
    exists response,
      post service_url data = inr response /\
      raise_for_status response = None /\
      response_json response = JsonValue (body r).

(** The content API with its initial store, called in process. *)
Definition loopback : transport := fun _ data =>
  match update_metadata data WEBSITE_METADATA with
  | (inr r, _) =>
      inr {| raise_for_status :=
               if status_code r =? 200 then None else Some "400 Client Error";
             response_json := JsonValue (body r) |}
  | (inl _, _) =>
      inr {| raise_for_status := Some "500 Server Error";
             response_json := JsonRequestError "Expecting value" |}
  end.

End AgentTools.

(** * The shape of the generated rows *)

Module Shape.
Import PyTime Db.

(** A page of the catalog with its title. *)
Definition page_ok (cfg : config) (page_path page_title : string) : Prop :=
  page_path ∈ keys (PAGE_MAP cfg) /\
  getitem (PAGE_MAP cfg) page_path = inr page_title.

(** One additional page view: the seconds since the previous hit, the
    page path and the page title. *)
Definition step : Type := Z * string * string.

Definition step_ok (cfg : config) (st : step) : Prop :=
  30 <= st.1.1 <= 120 /\ page_ok cfg st.1.2 st.2.

(** The page views that [steps] add after a hit at [last], numbered from [n]. *)
Fixpoint page_views (last : datetime) (n : Z) (steps : list step) : list Ga.hit :=
  match steps with
  | [] => []
  | (seconds, page_path, page_title) :: rest =>
      page_hit n (last + seconds) page_path page_title
        :: page_views (last + seconds) (n + 1) rest
  end.

(** The seconds [steps] take in all. *)
Fixpoint elapsed (steps : list step) : Z :=
  match steps with
  | [] => 0
  | (seconds, _, _) :: rest => seconds + elapsed rest
  end.

(** The three kinds of journey from [start]: a bounce, an engaged session
    and an engaged session that converts; with the bounce flag and the
    time on site of each. *)
Inductive journey_shape (cfg : config) (start : datetime)
  : list Ga.hit -> bool -> Z -> Prop :=
| shape_bounce page_path page_title time_on_site :
    page_ok cfg page_path page_title ->
    5 <= time_on_site <= 45 ->
    journey_shape cfg start [page_hit 1 start page_path page_title] true time_on_site
| shape_engaged page_path page_title steps :
    page_ok cfg page_path page_title ->
    (1 <= length steps <= 4)%nat ->
    Forall (step_ok cfg) steps ->
    journey_shape cfg start
      (page_hit 1 start page_path page_title :: page_views start 2 steps)
      false (elapsed steps)
| shape_converted page_path page_title steps seconds :
    page_ok cfg page_path page_title ->
    (1 <= length steps <= 4)%nat ->
    Forall (step_ok cfg) steps ->
    10 <= seconds <= 30 ->
    journey_shape cfg start
      (page_hit 1 start page_path page_title :: page_views start 2 steps
         ++ [conversion_hit (Z.of_nat (length steps) + 2)
               (start + elapsed steps + seconds)])
      false (elapsed steps + seconds).

(** The five (source, medium) pairs of the traffic source logic. *)
Definition traffic_pairs : list (string * string) :=
  [("google", "organic"); ("(direct)", "(none)"); ("youtube.com", "referral");
   ("facebook.com", "referral"); ("google", "cpc")].

(** A GA row of day [day]: its start time within the day, its journey, its
    totals and its categorical columns. *)
Definition ga_row_shape (cfg : config) (r : Ga.row) : Prop :=
  exists day seconds is_bounce time_on_site,
    0 <= day < NUM_DAYS cfg /\
    0 <= seconds <= 86399 /\
    Ga.session_start_time r = START_DATE + day * 86400 + seconds /\
    Ga.partition_date r = date_of (START_DATE + day * 86400) /\
    journey_shape cfg (Ga.session_start_time r) (Ga.hits r) is_bounce time_on_site /\
    Ga.time_on_site_seconds (Ga.totals r) = time_on_site /\
    Ga.bounces (Ga.totals r) = (if is_bounce then 1 else 0) /\
    Ga.pageviews (Ga.totals r)
      = Z.of_nat (length (filter (fun h => Ga.type h = Ga.PAGE) (Ga.hits r))) /\
    (Ga.source (Ga.traffic_source r), Ga.medium (Ga.traffic_source r)) ∈ traffic_pairs /\
    Ga.campaign (Ga.traffic_source r) = "(not set)" /\
    Ga.device_category r ∈ ["mobile"; "desktop"; "tablet"] /\
    Ga.browser r ∈ ["Chrome"; "Safari"; "Firefox"; "Edge"] /\
    Ga.operating_system r ∈ ["Android"; "iOS"; "Windows"; "MacOS"] /\
    Ga.geo_country (Ga.geo r) = PRIMARY_COUNTRY_NAME /\
    Ga.region (Ga.geo r) = PRIMARY_REGION /\
    Ga.city (Ga.geo r) ∈ [PRIMARY_CITY; "Coimbatore"; "Madurai"].

(** The last day [START_DATE + timedelta(days=day)] can reach: 9999-12-31. *)
Definition last_day : Z := 2912807.

(** Consecutive hits are spaced as the draws allow: a page view 30 to 120
    seconds after the hit before it, the conversion event 10 to 30. *)
Definition spaced (hits : list Ga.hit) : Prop :=
  forall i h1 h2, hits !! i = Some h1 -> hits !! S i = Some h2 ->
    match Ga.type h2 with
    | Ga.PAGE => 30 <= Ga.hit_time h2 - Ga.hit_time h1 <= 120
    | Ga.EVENT => 10 <= Ga.hit_time h2 - Ga.hit_time h1 <= 30
    end.

(** A hit carries the payload of its type, and only that one. *)
Definition hit_payload_ok (cfg : config) (h : Ga.hit) : Prop :=
  match Ga.type h with
  | Ga.PAGE =>
      Ga.event_info h = None /\
      exists page_path page_title,
        page_ok cfg page_path page_title /\
        Ga.page h = Some {| Ga.page_path := page_path;
                            Ga.page_title := page_title;
                            Ga.hostname := HOSPITAL_HOSTNAME |}
  | Ga.EVENT =>
      Ga.page h = None /\
      Ga.event_info h = Some {| Ga.event_category := "Conversion";
                                Ga.event_action := "Request Appointment";
                                Ga.event_label := "Ortho Page" |}
  end.

(** The (day, video id, title) triples of the YouTube table, in loop order. *)
Definition yt_key (r : Yt.row) : Z * string * string :=
  (Yt.partition_date r, Yt.external_video_id r, Yt.video_title r).

Definition yt_keys (cfg : config) : list (Z * string * string) :=
  day ← range (NUM_DAYS cfg);
  entry ← YT_VIDEOS cfg;
  [(date_of (START_DATE + day * 86400), entry.1, title entry.2)].

End Shape.

(** * The store of the content API, field by field *)

Module StoreShape.
Import App.

(** The value the store holds under [key] after a request with [fields]. *)
Definition merged (fields store : gmap string json) (key : string) : option json :=
  match fields !! key with
  | Some v => Some v
  | None => store !! key
  end.

End StoreShape.

(** * Recorded outcomes used as concrete inputs *)

Module Samples.
Import Db.

(** A GSC row with a click-through draw of 0.08 and an average position
    draw of 0.75 on 53 impressions. *)
Definition gsc_tape : tape :=
  [DRandint 50 8000 53; DNormal 0.08 0.03 0.08%float; DNormal 8 4 0.75%float].

Definition gsc_sample : Gsc.row :=
  {| Gsc.partition_date := 739251;
     Gsc.query := "knee pain";
     Gsc.page_url := "https://www.apollohospitals.com/blog/knee-pain-causes-and-treatments/";
     Gsc.country := "IN";
     Gsc.device := "MOBILE";
     Gsc.clicks := 4;
     Gsc.impressions := 53;
     Gsc.sum_position := 39 |}.

(** One day of the script's catalogs. *)
Definition one_day : config :=
  {| NUM_DAYS := 1;
     GSC_QUERIES := GSC_QUERIES script_config;
     YT_VIDEOS := YT_VIDEOS script_config;
     PAGE_MAP := PAGE_MAP script_config |}.

(** The draws of one GSC row for [query]. *)
Definition gsc_draws (query : string) : tape :=
  [ if contains "best" query then DRandint 500 10000 1000 else DRandint 50 8000 1000;
    if String.eqb query "shoulder surgery recovery time"
    then DNormal 0.005 0.001 0.005%float else DNormal 0.08 0.03 0.08%float;
    if contains "best" query then DNormal 3.5 1.5 3.5%float else DNormal 8 4 8%float ].

Definition gsc_day_tape (cfg : config) : tape :=
  '(query, _) ← GSC_QUERIES cfg; gsc_draws query ++ gsc_draws query.

(** The draws of one YouTube row with [views] views. *)
Definition yt_draws (views : Z) : tape :=
  [ DRandint 50 1500 views; DChoice 4 0; DChoice 2 1; DChoice 3 2; DChoice 4 3;
    DNormal 0.02 0.005 0.02%float; DNormal 0.005 0.002 0.005%float;
    DNormal 0.002 0.001 0.002%float; DNormal 0.001 0.0005 0.001%float ].

Definition yt_day_tape (cfg : config) : tape :=
  _ ← YT_VIDEOS cfg; yt_draws 100.

(** A bounce: one hit, a time on site of 7 seconds. *)
Definition bounce_tape : tape :=
  [ DRandint 0 86399 10; DUuid "user"; DUuid "session"; DRandom 0.1%float;
    DChoice 8 0; DRandom 0.5%float; DRandint 5 45 7;
    DChoice 3 0; DChoice 4 0; DChoice 4 0; DChoice 3 0 ].

(** An engaged session from a referral: two more page views, then the
    conversion event. *)
Definition engaged_tape : tape :=
  [ DRandint 0 86399 10; DUuid "user"; DUuid "session"; DRandom 0.85%float;
    DChoice 2 1; DChoice 8 0; DRandom 0.7%float; DRandint 1 4 2;
    DRandint 30 120 30; DChoice 8 1; DRandint 30 120 40; DChoice 8 2;
    DRandom 0.1%float; DRandint 10 30 10;
    DChoice 3 0; DChoice 4 0; DChoice 4 0; DChoice 3 0 ].

(** A day of 200 sessions, the first engaged, the others bounces. *)
Definition ga_day_tape : tape :=
  DRandint 200 1000 200 :: engaged_tape ++ (_ ← seq 0 199; bounce_tape).

Definition one_day_tape : tape :=
  gsc_day_tape one_day ++ yt_day_tape one_day ++ ga_day_tape.

Definition yt_table : list Yt.row :=
  Eval vm_compute in
    match yt_data one_day (yt_day_tape one_day) with
    | Ok tbl _ => tbl
    | _ => []
    end.

Definition ga_table : list Ga.row :=
  Eval vm_compute in
    match ga_sessions_data one_day ga_day_tape with
    | Ok tbl _ => tbl
    | _ => []
    end.

Definition gsc_table : list Gsc.row :=
  Eval vm_compute in
    match gsc_data one_day (gsc_day_tape one_day) with
    | Ok tbl _ => tbl
    | _ => []
    end.

(** The row of the engaged session. *)
Definition engaged_row : Ga.row :=
  {| Ga.partition_date := 739251;
     Ga.session_id := "session";
     Ga.user_id := "user";
     Ga.session_start_time := 63871286410;
     Ga.device_category := "mobile";
     Ga.browser := "Chrome";
     Ga.operating_system := "Android";
     Ga.geo := {| Ga.geo_country := "India"; Ga.region := "Tamil Nadu";
                  Ga.city := "Chennai" |};
     Ga.traffic_source := {| Ga.source := "facebook.com"; Ga.medium := "referral";
                             Ga.campaign := "(not set)" |};
     Ga.totals := {| Ga.pageviews := 3; Ga.time_on_site_seconds := 80;
                     Ga.bounces := 0 |};
     Ga.hits :=
       [ page_hit 1 63871286410 "/" "Homepage | Apollo Hospitals";
         page_hit 2 63871286440 "/chennai/centres-of-excellence/orthopedics/"
           "Best Orthopedic Hospital in Chennai | Apollo";
         page_hit 3 63871286480 "/blog/knee-pain-causes-and-treatments/"
           "Knee Pain Causes & Treatments";
         conversion_hit 4 63871286490 ] |}.

(** Ninety such days, pass after pass, for the script's configuration. *)
Definition script_tape : tape :=
  (_ ← seq 0 90; gsc_day_tape script_config)
  ++ (_ ← seq 0 90; yt_day_tape script_config)
  ++ (_ ← seq 0 90; ga_day_tape).

End Samples.

(** * The properties stated about the three programs *)

Module Props.
Import PyTime Db App.

(** The (day, query, device) triples of the GSC table, in loop order: the
    days, then the query catalog, then MOBILE and DESKTOP. *)
Definition gsc_key (r : Gsc.row) : Z * string * string :=
  (Gsc.partition_date r, Gsc.query r, Gsc.device r).

Definition gsc_keys (cfg : config) : list (Z * string * string) :=
  day ← range (NUM_DAYS cfg);
  entry ← GSC_QUERIES cfg;
  device ← ["MOBILE"; "DESKTOP"];
  [(PyTime.date_of (START_DATE + day * 86400), entry.1, device)].

(** The catalog invariant: no video is viewed, on average, for longer than
    it lasts. *)
Definition catalog_ok (cfg : config) : Prop :=
  Forall (fun entry => avg_view_sec entry.2 <= duration_sec entry.2) (YT_VIDEOS cfg).

(** The number of PAGE hits of a sequence, counted hit by hit. *)
Fixpoint count_pages (hits : list Ga.hit) : Z :=
  match hits with
  | [] => 0
  | h :: hits' =>
      (match Ga.type h with Ga.PAGE => 1 | Ga.EVENT => 0 end) + count_pages hits'
  end.

(** The hit numbers are 1, 2, ..., len(hits), in this order. *)
Definition numbered (hits : list Ga.hit) : Prop :=
  Ga.hit_number <$> hits = Z.of_nat <$> seq 1 (length hits).

(** The hit times never decrease along the sequence. *)
Definition timed (hits : list Ga.hit) : Prop :=
  StronglySorted Z.le (Ga.hit_time <$> hits).

(** The state of the journey after its first hits: numbered, timed, and
    no hit later than [last_hit_time]. *)
Definition journey_inv (st : list Ga.hit * datetime) : Prop :=
  numbered st.1 /\ timed st.1 /\
  Forall (fun h => Ga.hit_time h <= st.2) st.1.

(** The store holds a value under each of the four content fields. *)
Definition has_fields (store : gmap string json) : Prop :=
  Forall (fun key => is_Some (store !! key)) content_fields.

(** A run that returned and used up its tape. *)
Definition completes {A} (r : res A) : bool :=
  match r with
  | Ok _ [] => true
  | _ => false
  end.

(** The float of the count [n] is [n] itself, held on an exponent below
    zero. *)
Definition exact_float (n : Z) : bool :=
  match PyFloat.float_of_int n with
  | inr f =>
      match Prim2SF f with
      | S754_finite false m e => (e <? 0) && (Z.pos m =? n * 2 ^ (- e))
      | _ => false
      end
  | inl _ => false
  end.

End Props.

(** * Reasoning about generators *)

Section GenLemmas.
Context {A B : Type}.

Lemma bind_Ok (m : Gen A) (k : A -> Gen B) t b t' :
  (m ≫= k) t = Ok b t' <-> exists a t1, m t = Ok a t1 /\ k a t1 = Ok b t'.
Proof.
  unfold mbind, Gen_bind, gbind. split.
  - destruct (m t) as [a t1| |]; try discriminate. intros H. eauto.
  - intros (a & t1 & -> & H). exact H.
Qed.

Lemma mret_Ok (a b : A) t t' : mret (M := Gen) a t = Ok b t' <-> a = b /\ t = t'.
Proof.
  unfold mret, Gen_ret, gret. split.
  - intros H. inversion H. auto.
  - intros [-> ->]. reflexivity.
Qed.

Lemma lift_Ok (r : result A) a t t' : lift r t = Ok a t' <-> r = inr a /\ t = t'.
Proof.
  unfold lift. destruct r as [e|a0]; split; intros H.
  - discriminate.
  - destruct H as [H _]. discriminate.
  - inversion H. auto.
  - destruct H as [H ->]. inversion H. reflexivity.
Qed.
End GenLemmas.

Lemma randint_Ok lo hi t v t' :
  Random.randint lo hi t = Ok v t' <-> t = DRandint lo hi v :: t' /\ lo <= v <= hi.
Proof.
  unfold Random.randint. split.
  - destruct t as [|[lo' hi' w| | | |] t0]; try discriminate.
    destruct (lo' =? lo) eqn:E1; try discriminate.
    destruct (hi' =? hi) eqn:E2; try discriminate.
    destruct (lo <=? w) eqn:E3; try discriminate.
    destruct (w <=? hi) eqn:E4; try discriminate.
    simpl. intros H. inversion H. subst. split; [f_equal; f_equal|]; lia.
  - intros [-> [H1 H2]].
    rewrite !Z.eqb_refl. simpl.
    apply Z.leb_le in H1, H2. rewrite H1, H2. reflexivity.
Qed.

Lemma random_Ok t v t' :
  Random.random t = Ok v t' <->
  t = DRandom v :: t' /\ ((0 <=? v) && (v <? 1))%float = true.
Proof.
  unfold Random.random. split.
  - destruct t as [|[| w | | |] t0]; try discriminate.
    destruct ((0 <=? w) && (w <? 1))%float eqn:E; try discriminate.
    intros H. inversion H. subst. auto.
  - intros [-> ->]. reflexivity.
Qed.

Lemma normal_Ok mu sigma t v t' :
  Random.normal mu sigma t = Ok v t' <->
  exists mu' sigma', t = DNormal mu' sigma' v :: t' /\
    (mu' == mu)%Q /\ (sigma' == sigma)%Q /\ is_finite v = true /\
    Random.in_reach mu sigma v = true.
Proof.
  unfold Random.normal. split.
  - destruct t as [|[| | mu' sigma' w | |] t0]; try discriminate.
    destruct (Qeq_bool mu' mu) eqn:E1; try discriminate.
    destruct (Qeq_bool sigma' sigma) eqn:E2; try discriminate.
    destruct (is_finite w) eqn:E3; try discriminate.
    destruct (Random.in_reach mu sigma w) eqn:E4; try discriminate.
    simpl. intros H. inversion H. subst.
    exists mu', sigma'. repeat split; auto using Qeq_bool_eq.
  - intros (mu' & sigma' & -> & H1 & H2 & H3 & H4).
    rewrite (Qeq_eq_bool _ _ H1), (Qeq_eq_bool _ _ H2), H3, H4. reflexivity.
Qed.

Lemma choice_Ok {A} (seq : list A) t a t' :
  Random.choice seq t = Ok a t' <->
  exists i, t = DChoice (length seq) i :: t' /\ seq !! i = Some a.
Proof.
  unfold Random.choice. split.
  - destruct seq as [|x seq]; try discriminate.
    destruct t as [|[| | | n i |] t0]; try discriminate.
    destruct (n =? length (x :: seq))%nat eqn:E; try discriminate.
    apply Nat.eqb_eq in E. subst n.
    destruct ((x :: seq) !! i) eqn:El; try discriminate.
    intros H. inversion H. subst. eauto.
  - intros (i & -> & Hl). destruct seq as [|x seq]; [discriminate|].
    rewrite Nat.eqb_refl, Hl. reflexivity.
Qed.

Lemma uuid4_Ok t s t' : Random.uuid4 t = Ok s t' <-> t = DUuid s :: t'.
Proof.
  unfold Random.uuid4. split.
  - destruct t as [|[| | | | u] t0]; try discriminate.
    intros H. inversion H. reflexivity.
  - intros ->. reflexivity.
Qed.

(** ** Loop invariants *)

Section ForEach.
Context {B S : Type}.

(** An invariant indexed by the number of iterations done: it holds
    after the loop if every successful iteration carries it one step. *)
Lemma for_each_inv (I : nat -> S -> Prop) (body : B -> S -> Gen S) :
  forall xs s t s' t',
    I 0%nat s ->
    (forall k x s1 t1 s2 t2,
        xs !! k = Some x -> I k s1 -> body x s1 t1 = Ok s2 t2 -> I (Datatypes.S k) s2) ->
    for_each xs body s t = Ok s' t' ->
    I (length xs) s'.
Proof.
  intros xs. revert I.
  induction xs as [|x xs IH]; intros I s t s' t' H0 Hstep Hrun; simpl in Hrun.
  - apply mret_Ok in Hrun as [<- _]. exact H0.
  - apply bind_Ok in Hrun as (s1 & t1 & Hbody & Hrest).
    apply (IH (fun k => I (Datatypes.S k)) s1 t1 s' t').
    + apply (Hstep 0%nat x s t s1 t1); [reflexivity | exact H0 | exact Hbody].
    + intros k y s2 t2 s3 t3 Hk. apply (Hstep (Datatypes.S k)). exact Hk.
    + exact Hrest.
Qed.

(** The unindexed form. *)
Lemma for_each_preserves (I : S -> Prop) (body : B -> S -> Gen S) xs s t s' t' :
  I s ->
  (forall x s1 t1 s2 t2, x ∈ xs -> I s1 -> body x s1 t1 = Ok s2 t2 -> I s2) ->
  for_each xs body s t = Ok s' t' ->
  I s'.
Proof.
  intros H0 Hstep Hrun.
  apply (for_each_inv (fun _ => I) body xs s t s' t'); auto.
  intros k x s1 t1 s2 t2 Hk. apply Hstep.
  apply list_elem_of_lookup. eauto.
Qed.
End ForEach.

Lemma length_range n : 0 <= n -> Z.of_nat (length (range n)) = n.
Proof.
  intros Hn. unfold range. rewrite length_fmap, length_seq. lia.
Qed.

Lemma lookup_range n k x : range n !! k = Some x -> x = Z.of_nat k.
Proof.
  unfold range. rewrite list_lookup_fmap.
  destruct (seq 0 (Z.to_nat n) !! k) as [j|] eqn:E; simpl; [|discriminate].
  apply lookup_seq in E as [-> _]. intros H. inversion H. reflexivity.
Qed.

(** ** Truncation, floor and rounding of floats *)

Lemma SFden_pos e : 0 < PyFloat.SFden e.
Proof. unfold PyFloat.SFden. apply Z.pow_pos_nonneg; lia. Qed.

Lemma max0_quot_div n d : 0 < d -> Z.max 0 (n ÷ d) = Z.max 0 (n / d).
Proof.
  intros Hd. destruct (Z_le_gt_dec 0 n) as [Hn|Hn].
  - rewrite Z.quot_div_nonneg by lia. reflexivity.
  - assert (n / d < 0) by (apply Z.div_lt_upper_bound; lia).
    assert (n ÷ d <= 0).
    { replace n with (- - n) by lia. rewrite Z.quot_opp_l by lia.
      assert (0 <= (- n) ÷ d) by (apply Z.quot_pos; lia). lia. }
    lia.
Qed.

(** Flooring at zero hides the difference between [int()] and [floor]. *)
Lemma max0_int_floor x z :
  PyFloat.int_of_float x = inr z ->
  exists fl, PyFloat.floor x = inr fl /\ Z.max 0 z = Z.max 0 fl.
Proof.
  unfold PyFloat.int_of_float, PyFloat.floor.
  destruct (Prim2SF x) as [s|s| |s m e]; try discriminate.
  - intros H. inversion H. eauto.
  - intros H. inversion H. eexists. split; [reflexivity|].
    apply max0_quot_div, SFden_pos.
Qed.

(** * The binary64 product of a count and a rate

    [impressions * ctr] is rounded once, by [binary_round_aux]; the lemmas
    below bound the rounded product from above by following the two shifts
    of the mantissa. *)

Module FloatBounds.
Import PyFloat Props.

Lemma shr_1_m r : 0 <= shr_m r -> shr_m (shr_1 r) = shr_m r / 2.
Proof.
  destruct r as [m b s]. simpl. destruct m as [|p|p]; [reflexivity| |lia].
  intros _. destruct p as [p|p|]; simpl.
  - rewrite (Pos2Z.inj_xI p). apply Z.div_unique with 1; lia.
  - rewrite (Pos2Z.inj_xO p). apply Z.div_unique with 0; lia.
  - reflexivity.
Qed.

Lemma iter_shr_1_m p : forall r,
  0 <= shr_m r -> shr_m (SpecFloat.iter_pos shr_1 p r) = shr_m r / 2 ^ Z.pos p.
Proof.
  assert (Hdiv : forall a b c, 0 < b -> 0 < c -> a / b / c = a / (b * c)).
  { intros. apply Z.div_div; lia. }
  assert (Hpos : forall q, 0 < 2 ^ Z.pos q) by (intros; apply Z.pow_pos_nonneg; lia).
  induction p as [p IH|p IH|]; intros r Hr.
  - assert (E : 2 ^ Z.pos p~1 = 2 * 2 ^ Z.pos p * 2 ^ Z.pos p).
    { rewrite (Pos2Z.inj_xI p).
      replace (2 * Z.pos p + 1) with (1 + Z.pos p + Z.pos p) by lia.
      rewrite !Z.pow_add_r by lia. reflexivity. }
    change (SpecFloat.iter_pos shr_1 p~1 r)
      with (SpecFloat.iter_pos shr_1 p (SpecFloat.iter_pos shr_1 p (shr_1 r))).
    assert (H1 : 0 <= shr_m (shr_1 r)).
    { rewrite shr_1_m by assumption. apply Z.div_pos; lia. }
    assert (H2 : 0 <= shr_m (SpecFloat.iter_pos shr_1 p (shr_1 r))).
    { rewrite IH by assumption. apply Z.div_pos; [assumption|apply Hpos]. }
    rewrite IH, IH, shr_1_m by assumption.
    rewrite Hdiv by (try apply Hpos; lia).
    rewrite Hdiv by (try apply Hpos; try apply Z.mul_pos_pos; try apply Hpos; lia).
    rewrite E. f_equal. ring.
  - assert (E : 2 ^ Z.pos p~0 = 2 ^ Z.pos p * 2 ^ Z.pos p).
    { rewrite (Pos2Z.inj_xO p).
      replace (2 * Z.pos p) with (Z.pos p + Z.pos p) by lia.
      rewrite Z.pow_add_r by lia. reflexivity. }
    change (SpecFloat.iter_pos shr_1 p~0 r)
      with (SpecFloat.iter_pos shr_1 p (SpecFloat.iter_pos shr_1 p r)).
    assert (H2 : 0 <= shr_m (SpecFloat.iter_pos shr_1 p r)).
    { rewrite IH by assumption. apply Z.div_pos; [assumption|apply Hpos]. }
    rewrite IH, IH by assumption.
    rewrite Hdiv by apply Hpos.
    rewrite E. reflexivity.
  - change (SpecFloat.iter_pos shr_1 1 r) with (shr_1 r).
    rewrite shr_1_m by assumption. reflexivity.
Qed.

Lemma shr_record_of_loc_m m l : shr_m (shr_record_of_loc m l) = m.
Proof. destruct l as [|[]]; reflexivity. Qed.

Lemma round_nearest_even_bound m l :
  m <= round_nearest_even m l <= m + 1.
Proof.
  unfold round_nearest_even. destruct l as [|[]]; try lia.
  destruct (Z.even m); lia.
Qed.

Lemma digits2_pos_le m : 2 ^ (Z.pos (digits2_pos m) - 1) <= Z.pos m.
Proof.
  induction m as [m IH|m IH|]; simpl; [| |reflexivity].
  - rewrite Pos2Z.inj_succ, (Pos2Z.inj_xI m).
    replace (Z.succ (Z.pos (digits2_pos m)) - 1)
      with (1 + (Z.pos (digits2_pos m) - 1)) by lia.
    rewrite Z.pow_add_r by lia. lia.
  - rewrite Pos2Z.inj_succ, (Pos2Z.inj_xO m).
    replace (Z.succ (Z.pos (digits2_pos m)) - 1)
      with (1 + (Z.pos (digits2_pos m) - 1)) by lia.
    rewrite Z.pow_add_r by lia. lia.
Qed.

(** One shift to the exponent [fexp] asks for: the exponent does not go
    down and the mantissa, put back on the old exponent, does not go
    up. *)
Lemma shr_fexp_bound m e l mrs e' :
  0 <= m ->
  shr_fexp prec emax m e l = (mrs, e') ->
  e' = e + Z.max 0 (fexp prec emax (Zdigits2 m + e) - e) /\
  0 <= shr_m mrs /\
  shr_m mrs * 2 ^ (e' - e) <= m.
Proof.
  intros Hm. unfold shr_fexp, shr.
  destruct (fexp prec emax (Zdigits2 m + e) - e) as [|p|p] eqn:E;
    intros H; injection H as <- <-.
  - rewrite shr_record_of_loc_m, Z.sub_diag, Z.pow_0_r. lia.
  - rewrite iter_shr_1_m by (rewrite shr_record_of_loc_m; assumption).
    rewrite shr_record_of_loc_m.
    assert (0 < 2 ^ Z.pos p) by (apply Z.pow_pos_nonneg; lia).
    split; [lia|]. split; [apply Z.div_pos; lia|].
    replace (e + Z.pos p - e) with (Z.pos p) by lia.
    rewrite Z.mul_comm. apply Z.mul_div_le. assumption.
  - rewrite shr_record_of_loc_m, Z.sub_diag, Z.pow_0_r. lia.
Qed.

(** The size of the first shift, for an exponent below zero. *)
Lemma shift_small m e :
  e < 0 ->
  2 ^ Z.max 0 (fexp prec emax (Zdigits2 (Z.pos m) + e) - e)
    <= Z.pos m + 2 ^ (- e - 1).
Proof.
  intros He. unfold fexp, emin. simpl Zdigits2.
  pose proof (digits2_pos_le m) as Hd.
  set (d := Z.pos (digits2_pos m)) in *.
  assert (Hd0 : 0 < d) by (unfold d; lia).
  assert (H1 : 0 < 2 ^ (- e - 1)) by (apply Z.pow_pos_nonneg; lia).
  change prec with 53. change emax with 1024.
  destruct (Z.max_spec 0 (Z.max (d + e - 53) (3 - 1024 - 53) - e)) as [[_ ->]|[_ ->]].
  - destruct (Z.max_spec (d + e - 53) (3 - 1024 - 53)) as [[_ ->]|[_ ->]].
    + assert (2 ^ (3 - 1024 - 53 - e) <= 2 ^ (- e - 1))
        by (apply Z.pow_le_mono_r; lia). lia.
    + replace (d + e - 53 - e) with (d - 53) by lia.
      destruct (Z_lt_le_dec (d - 53) 0).
      * rewrite Z.pow_neg_r by lia. lia.
      * assert (2 ^ (d - 53) <= 2 ^ (d - 1)) by (apply Z.pow_le_mono_r; lia). lia.
  - simpl. lia.
Qed.

(** Rounding a positive product [m * 2^e] with [e < 0] to binary64 at
    most doubles the value and adds a half. *)
Lemma binary_round_aux_bound s m e s' m' e' :
  e < 0 ->
  binary_round_aux prec emax s (Z.pos m) e loc_Exact = S754_finite s' m' e' ->
  e <= e' /\ Z.pos m' * 2 ^ (e' - e) <= 2 * Z.pos m + 2 ^ (- e - 1).
Proof.
  intros He. unfold binary_round_aux.
  destruct (shr_fexp prec emax (Z.pos m) e loc_Exact) as [mrs1 e1] eqn:E1.
  apply shr_fexp_bound in E1 as (He1 & Hm1 & Hle1); [|lia].
  pose proof (round_nearest_even_bound (shr_m mrs1) (loc_of_shr_record mrs1)) as Hr.
  set (m1 := round_nearest_even (shr_m mrs1) (loc_of_shr_record mrs1)) in *.
  destruct (shr_fexp prec emax m1 e1 loc_Exact) as [mrs2 e2] eqn:E2.
  apply shr_fexp_bound in E2 as (He2 & Hm2 & Hle2); [|lia].
  destruct (shr_m mrs2) as [|p|p] eqn:E; try discriminate.
  destruct (e2 <=? emax - prec); try discriminate.
  intros H. inversion H. subst s' m' e'. clear H.
  pose proof (shift_small m e He) as Hs.
  set (n1 := Z.max 0 (fexp prec emax (Zdigits2 (Z.pos m) + e) - e)) in *.
  set (n2 := Z.max 0 (fexp prec emax (Zdigits2 m1 + e1) - e1)) in *.
  assert (0 <= n1) by (unfold n1; lia).
  assert (0 <= n2) by (unfold n2; lia).
  split; [lia|].
  replace (e2 - e) with (n2 + n1) by lia.
  replace (e1 - e) with n1 in Hle1 by lia.
  replace (e2 - e1) with n2 in Hle2 by lia.
  rewrite Z.pow_add_r by lia.
  assert (0 < 2 ^ n1) by (apply Z.pow_pos_nonneg; lia).
  assert (Z.pos p * 2 ^ n2 * 2 ^ n1 <= m1 * 2 ^ n1) by (apply Z.mul_le_mono_nonneg_r; lia).
  nia.
Qed.

Lemma binary_round_aux_sign s m e l s' m' e' :
  binary_round_aux prec emax s m e l = S754_finite s' m' e' -> s' = s.
Proof.
  unfold binary_round_aux.
  destruct (shr_fexp prec emax m e l) as [mrs1 e1].
  destruct (shr_fexp prec emax _ e1 loc_Exact) as [mrs2 e2].
  destruct (shr_m mrs2); try discriminate.
  destruct (e2 <=? emax - prec); try discriminate.
  intros H. inversion H. reflexivity.
Qed.

(** [int()] of a negative float is not above zero. *)
Lemma int_negative m e : SFnum true m e ÷ SFden e <= 0.
Proof.
  unfold SFnum. pose proof (SFden_pos e) as Hd.
  assert (Hp : 0 < 2 ^ Z.max 0 e) by (apply Z.pow_pos_nonneg; lia).
  replace (Z.neg m * 2 ^ Z.max 0 e) with (- (Z.pos m * 2 ^ Z.max 0 e)) by lia.
  rewrite Z.quot_opp_l by lia.
  assert (0 <= (Z.pos m * 2 ^ Z.max 0 e) ÷ SFden e) by (apply Z.quot_pos; lia).
  lia.
Qed.

(** [int()] of a positive float, from a bound on a smaller exponent. *)
Lemma int_positive m' e' e n :
  e <= e' -> e < 0 -> 0 <= n ->
  Z.pos m' * 2 ^ (e' - e) <= n * 2 ^ (- e) ->
  SFnum false m' e' ÷ SFden e' <= n.
Proof.
  intros Hee He Hn H. unfold SFnum, SFden.
  assert (Hp : forall k, 0 <= k -> 0 < 2 ^ k) by (intros; apply Z.pow_pos_nonneg; lia).
  rewrite Z.quot_div_nonneg
    by (try apply Z.mul_nonneg_nonneg; try apply Z.lt_le_incl; try apply Hp; lia).
  destruct (Z_lt_le_dec e' 0) as [Hneg|Hpos].
  - replace (Z.max 0 e') with 0 by lia. replace (Z.max 0 (- e')) with (- e') by lia.
    rewrite Z.pow_0_r, Z.mul_1_r.
    apply Z.div_le_upper_bound; [apply Hp; lia|].
    replace (- e) with (- e' + (e' - e)) in H by lia.
    rewrite Z.pow_add_r in H by lia.
    pose proof (Hp (e' - e)). pose proof (Hp (- e')). nia.
  - replace (Z.max 0 e') with e' by lia. replace (Z.max 0 (- e')) with 0 by lia.
    rewrite Z.pow_0_r, Z.div_1_r.
    replace (e' - e) with (e' + - e) in H by lia.
    rewrite Z.pow_add_r in H by lia.
    pose proof (Hp (- e)). pose proof (Hp e'). nia.
Qed.

(** Every impression count the generator draws is a float exactly. *)
Lemma exact_float_counts n : 50 <= n <= 10000 -> exact_float n = true.
Proof.
  intros Hn.
  assert (H : forallb (fun k => exact_float (50 + Z.of_nat k)) (seq 0 (Z.to_nat 9951)) = true)
    by (vm_compute; reflexivity).
  rewrite forallb_forall in H.
  specialize (H (Z.to_nat (n - 50))).
  replace (50 + Z.of_nat (Z.to_nat (n - 50))) with n in H by lia.
  apply H. apply in_seq. lia.
Qed.

(** A draw within reach of its mean, as a rational. *)
Lemma in_reach_upper mu sigma v :
  Random.in_reach mu sigma v = true ->
  exists q, Random.rational v = Some q /\
    (q <= mu + Random.gauss_bound * sigma)%Q.
Proof.
  unfold Random.in_reach. destruct (Random.rational v) as [q|]; [|discriminate].
  intros H. apply andb_true_iff in H as [_ H]. apply Qle_bool_iff in H. eauto.
Qed.

(** A positive float below 9/20 has an exponent below zero. *)
Lemma rational_small v q :
  Random.rational v = Some q -> (q <= 9 # 20)%Q ->
  match Prim2SF v with
  | S754_zero _ => True
  | S754_finite false m e => e < 0 /\ Z.pos m * 20 <= 9 * 2 ^ (- e)
  | S754_finite true _ _ => True
  | _ => False
  end.
Proof.
  unfold Random.rational.
  destruct (Prim2SF v) as [s|s| |s m e]; try discriminate; [trivial|].
  destruct s; [trivial|].
  intros H Hq. inversion H; subst q; clear H.
  unfold Qle in Hq. cbn [Qnum Qden] in Hq.
  rewrite Z2Pos.id in Hq by apply SFden_pos.
  unfold SFnum, SFden in Hq.
  assert (Hp : forall k, 0 <= k -> 0 < 2 ^ k) by (intros; apply Z.pow_pos_nonneg; lia).
  destruct (Z_lt_le_dec e 0) as [Hneg|Hpos].
  - replace (Z.max 0 e) with 0 in Hq by lia.
    replace (Z.max 0 (- e)) with (- e) in Hq by lia.
    rewrite Z.pow_0_r in Hq. lia.
  - replace (Z.max 0 e) with e in Hq by lia.
    replace (Z.max 0 (- e)) with 0 in Hq by lia.
    rewrite Z.pow_0_r in Hq. pose proof (Hp e Hpos). nia.
Qed.

(** The truncated product of an impression count and a click-through
    rate of at most 9/20 is not above the count. *)
Lemma clicks_below n ctr q product z :
  50 <= n <= 10000 ->
  Random.rational ctr = Some q -> (q <= 9 # 20)%Q ->
  int_mul_float n ctr = inr product ->
  int_of_float product = inr z ->
  z <= n.
Proof.
  intros Hn Hq Hle Hp Hz.
  pose proof (exact_float_counts n Hn) as Hf. unfold exact_float in Hf.
  unfold int_mul_float in Hp.
  destruct (float_of_int n) as [|f]; [discriminate|].
  inversion Hp; subst product; clear Hp.
  destruct (Prim2SF f) as [| | |[] mx ex] eqn:Ef; try discriminate.
  apply andb_true_iff in Hf as [Hex Hmx].
  apply Z.ltb_lt in Hex. apply Z.eqb_eq in Hmx.
  pose proof (rational_small ctr q Hq Hle) as Hc.
  unfold int_of_float in Hz. rewrite mul_spec, Ef in Hz. unfold SF64mul in Hz.
  destruct (Prim2SF ctr) as [s|s| |s my ey]; try contradiction.
  - simpl in Hz. inversion Hz. lia.
  - cbn [SFmul xorb] in Hz.
    destruct (binary_round_aux prec emax s (Z.pos (mx * my)) (ex + ey) loc_Exact)
      as [s'|s'| |s' m' e'] eqn:Er; try discriminate.
    + inversion Hz. lia.
    + inversion Hz; subst z; clear Hz.
      pose proof (binary_round_aux_sign _ _ _ _ _ _ _ Er) as ->.
      destruct s.
      * pose proof (int_negative m' e'). lia.
      * destruct Hc as [Hey Hmy].
        apply binary_round_aux_bound in Er as (Hee & Hb); [|lia].
        apply int_positive with (e := ex + ey); try lia.
        rewrite Pos2Z.inj_mul, Hmx in Hb.
        assert (Hpow : forall k, 0 <= k -> 0 < 2 ^ k)
          by (intros; apply Z.pow_pos_nonneg; lia).
        assert (HA : 2 ^ (- (ex + ey)) = 2 ^ (- ex) * 2 ^ (- ey)).
        { rewrite <- Z.pow_add_r by lia. f_equal. lia. }
        assert (HT : 2 ^ (- (ex + ey)) = 2 * 2 ^ (- (ex + ey) - 1)).
        { replace (- (ex + ey)) with (1 + (- (ex + ey) - 1)) at 1 by lia.
          rewrite Z.pow_add_r by lia. reflexivity. }
        pose proof (Hpow (- ex) ltac:(lia)) as HpA.
        pose proof (Hpow (- ey) ltac:(lia)) as HpB.
        pose proof (Hpow (- (ex + ey) - 1) ltac:(lia)) as HpT.
        set (A := 2 ^ (- ex)) in *. set (B := 2 ^ (- ey)) in *.
        set (T := 2 ^ (- (ex + ey) - 1)) in *.
        rewrite HT.
        assert (H1 : n * A * (Z.pos my * 20) <= n * A * (9 * B))
          by (apply Z.mul_le_mono_nonneg_l; nia).
        assert (H2 : n * A * B = n * (2 * T)) by (rewrite <- Z.mul_assoc, <- HA, HT; reflexivity).
        assert (H3 : 50 * T <= n * T) by nia.
        nia.
Qed.

End FloatBounds.

(** * Properties of the GSC pass *)

Module GscFacts.
Import PyFloat Db.

(** What a successful run of the loop body consumed and computed. *)
Lemma gsc_row_Ok current_date query page device t r t' :
  gsc_row current_date query page device t = Ok r t' ->
  exists lo hi mu sigma ctr mu2 sigma2 avg_position product weighted truncated,
    t = DRandint lo hi (Gsc.impressions r) :: DNormal mu sigma ctr
          :: DNormal mu2 sigma2 avg_position :: t' /\
    (if String.eqb query "shoulder surgery recovery time"
     then mu == 0.005 /\ sigma == 0.001
     else mu == 0.08 /\ sigma == 0.03)%Q /\
    (if contains "best" query
     then mu2 == 3.5 /\ sigma2 == 1.5
     else mu2 == 8 /\ sigma2 == 4)%Q /\
    int_mul_float (Gsc.impressions r) ctr = inr product /\
    int_of_float product = inr truncated /\
    Gsc.clicks r = Z.max 0 truncated /\
    float_mul_int avg_position (Gsc.impressions r) = inr weighted /\
    int_of_float weighted = inr (Gsc.sum_position r).
Proof.
  unfold gsc_row. intros H.
  apply bind_Ok in H as (imp & t1 & Himp & H).
  apply bind_Ok in H as (ctr & t2 & Hctr & H).
  apply bind_Ok in H as (product & t3 & Hprod & H).
  apply bind_Ok in H as (truncated & t4 & Htrunc & H).
  apply bind_Ok in H as (avg & t5 & Havg & H).
  apply bind_Ok in H as (weighted & t6 & Hw & H).
  apply bind_Ok in H as (sum & t7 & Hsum & H).
  apply mret_Ok in H as [<- <-].
  apply lift_Ok in Hprod as [Hprod ->].
  apply lift_Ok in Htrunc as [Htrunc ->].
  apply lift_Ok in Hw as [Hw ->].
  apply lift_Ok in Hsum as [Hsum ->].
  assert (exists lo hi, t = DRandint lo hi imp :: t1) as (lo & hi & ->).
  { destruct (negb (contains "best" query));
      apply randint_Ok in Himp as [-> _]; eauto. }
  assert (exists mu sigma, t1 = DNormal mu sigma ctr :: t4 /\
            (if String.eqb query "shoulder surgery recovery time"
             then mu == 0.005 /\ sigma == 0.001
             else mu == 0.08 /\ sigma == 0.03)%Q) as (mu & sigma & -> & Hmu).
  { destruct (String.eqb query "shoulder surgery recovery time");
      apply normal_Ok in Hctr as (mu & sigma & -> & ? & ? & _); eauto. }
  assert (exists mu2 sigma2, t4 = DNormal mu2 sigma2 avg :: t7 /\
            (if contains "best" query
             then mu2 == 3.5 /\ sigma2 == 1.5
             else mu2 == 8 /\ sigma2 == 4)%Q) as (mu2 & sigma2 & -> & Hmu2).
  { destruct (contains "best" query);
      apply normal_Ok in Havg as (mu2 & sigma2 & -> & ? & ? & _); eauto. }
  simpl.
  exists lo, hi, mu, sigma, ctr, mu2, sigma2, avg, product, weighted, truncated.
  repeat split; assumption.
Qed.

(** The click-through draw of a successful run, and what bounds it and
    the impressions. *)
Lemma gsc_row_clicks current_date query page device t r t' :
  gsc_row current_date query page device t = Ok r t' ->
  exists lo hi mu sigma ctr rest q product truncated,
    t = DRandint lo hi (Gsc.impressions r) :: DNormal mu sigma ctr :: rest /\
    (if String.eqb query "shoulder surgery recovery time"
     then mu == 0.005 /\ sigma == 0.001
     else mu == 0.08 /\ sigma == 0.03)%Q /\
    50 <= Gsc.impressions r <= 10000 /\
    Random.rational ctr = Some q /\ (q <= 0.4403)%Q /\
    int_mul_float (Gsc.impressions r) ctr = inr product /\
    int_of_float product = inr truncated /\
    Gsc.clicks r = Z.max 0 truncated.
Proof.
  unfold gsc_row. intros H.
  apply bind_Ok in H as (imp & t1 & Himp & H).
  apply bind_Ok in H as (ctr & t2 & Hctr & H).
  apply bind_Ok in H as (product & t3 & Hprod & H).
  apply bind_Ok in H as (truncated & t4 & Htrunc & H).
  apply bind_Ok in H as (avg & t5 & Havg & H).
  apply bind_Ok in H as (weighted & t6 & Hw & H).
  apply bind_Ok in H as (sum & t7 & Hsum & H).
  apply mret_Ok in H as [<- <-].
  apply lift_Ok in Hprod as [Hprod ->].
  apply lift_Ok in Htrunc as [Htrunc ->].
  assert (exists lo hi, t = DRandint lo hi imp :: t1 /\ 50 <= imp <= 10000)
    as (lo & hi & -> & Hrange).
  { destruct (negb (contains "best" query));
      apply randint_Ok in Himp as [-> ?]; eexists _, _; split; eauto; lia. }
  assert (exists mu sigma q, t1 = DNormal mu sigma ctr :: t4 /\
            (if String.eqb query "shoulder surgery recovery time"
             then mu == 0.005 /\ sigma == 0.001
             else mu == 0.08 /\ sigma == 0.03)%Q /\
            Random.rational ctr = Some q /\ (q <= 0.4403)%Q)
    as (mu & sigma & q & -> & Hmu & Hq & Hle).
  { destruct (String.eqb query "shoulder surgery recovery time");
      apply normal_Ok in Hctr as (mu & sigma & -> & ? & ? & _ & Hreach);
      apply FloatBounds.in_reach_upper in Hreach as (q & Hq & Hle);
      exists mu, sigma, q; repeat split; auto;
      (eapply Qle_trans; [exact Hle|]); vm_compute; discriminate. }
  simpl. exists lo, hi, mu, sigma, ctr, t4, q, product, truncated.
  repeat split; auto; lia.
Qed.

(** No clamp is needed: the product never truncates above the
    impressions. *)
Lemma gsc_row_clicks_le current_date query page device t r t' :
  gsc_row current_date query page device t = Ok r t' ->
  Gsc.clicks r <= Gsc.impressions r.
Proof.
  intros H.
  apply gsc_row_clicks in H
    as (lo & hi & mu & sigma & ctr & rest & q & product & truncated
        & _ & _ & Hrange & Hq & Hle & Hprod & Htrunc & ->).
  assert (truncated <= Gsc.impressions r); [|lia].
  eapply FloatBounds.clicks_below; eauto.
  eapply Qle_trans; [exact Hle|]. vm_compute. discriminate.
Qed.

(** Counterexample to C5 as stated: no draw gives a row with more clicks
    than impressions.  The click-through draw is at most 0.4403, so the
    product stays below the impressions. *)
Lemma gsc_clicks_never_above :
  ~ (exists current_date query page device t r t',
       gsc_row current_date query page device t = Ok r t' /\
       Gsc.impressions r < Gsc.clicks r).
Proof.
  intros (current_date & query & page & device & t & r & t' & H & Hlt).
  apply gsc_row_clicks_le in H. lia.
Qed.

(** C5, amended: on every generated GSC row, clicks is
    max(0, floor(impressions * ctr)), where ctr is the draw from
    normal(0.005, 0.001) for the query "shoulder surgery recovery time"
    and from normal(0.08, 0.03) for any other query; so clicks is never
    negative.  Nothing clamps clicks from above, and nothing has to: the
    draw is at most 0.4403, and clicks is at most impressions on every
    row. *)
Theorem gsc_clicks_floor current_date query page device t r t' :
  gsc_row current_date query page device t = Ok r t' ->
  exists lo hi mu sigma ctr rest q product fl,
    t = DRandint lo hi (Gsc.impressions r) :: DNormal mu sigma ctr :: rest /\
    (if String.eqb query "shoulder surgery recovery time"
     then mu == 0.005 /\ sigma == 0.001
     else mu == 0.08 /\ sigma == 0.03)%Q /\
    Random.rational ctr = Some q /\ (q <= 0.4403)%Q /\
    int_mul_float (Gsc.impressions r) ctr = inr product /\
    floor product = inr fl /\
    Gsc.clicks r = Z.max 0 fl /\
    0 <= Gsc.clicks r <= Gsc.impressions r.
Proof.
  intros H. pose proof (gsc_row_clicks_le _ _ _ _ _ _ _ H) as Hle.
  apply gsc_row_clicks in H
    as (lo & hi & mu & sigma & ctr & rest & q & product & truncated
        & -> & Hmu & _ & Hq & Hq' & Hprod & Htrunc & Hclicks).
  apply max0_int_floor in Htrunc as (fl & Hfl & Hmax).
  exists lo, hi, mu, sigma, ctr, rest, q, product, fl.
  rewrite Hclicks, Hmax in *. repeat split; auto. lia.
Qed.

Lemma gsc_clicks_floor_witness :
  exists lo hi mu sigma ctr rest q product fl,
    Samples.gsc_tape
      = DRandint lo hi (Gsc.impressions Samples.gsc_sample) :: DNormal mu sigma ctr :: rest /\
    (mu == 0.08 /\ sigma == 0.03)%Q /\
    Random.rational ctr = Some q /\ (q <= 0.4403)%Q /\
    int_mul_float (Gsc.impressions Samples.gsc_sample) ctr = inr product /\
    floor product = inr fl /\
    Gsc.clicks Samples.gsc_sample = Z.max 0 fl /\
    0 <= Gsc.clicks Samples.gsc_sample <= Gsc.impressions Samples.gsc_sample.
Proof.
  refine (gsc_clicks_floor START_DATE "knee pain"
            "/blog/knee-pain-causes-and-treatments/" "MOBILE"
            Samples.gsc_tape Samples.gsc_sample [] _).
  vm_compute. reflexivity.
Defined.

(** Counterexample to C6 as stated: with an average-position draw of 0.75
    on 53 impressions the product is 39.75, the stored sum_position is 39
    and round(39.75) is 40. *)
Lemma gsc_sum_position_not_round :
  gsc_row START_DATE "knee pain" "/blog/knee-pain-causes-and-treatments/"
    "MOBILE" Samples.gsc_tape = Ok Samples.gsc_sample [] /\
  Gsc.sum_position Samples.gsc_sample = 39 /\
  float_mul_int 0.75 (Gsc.impressions Samples.gsc_sample) = inr 39.75%float /\
  round 39.75 = inr 40 /\
  round 39.75 <> inr (Gsc.sum_position Samples.gsc_sample).
Proof.
  repeat split; try (vm_compute; reflexivity).
  vm_compute. discriminate.
Qed.

(** C6, amended: on every generated GSC row, sum_position is
    int(avg_position * impressions), the product truncated toward zero,
    where avg_position is the draw from normal(3.5, 1.5) for a query
    containing "best" and from normal(8, 4) for any other query. *)
Theorem gsc_sum_position_truncates current_date query page device t r t' :
  gsc_row current_date query page device t = Ok r t' ->
  exists lo hi d mu sigma avg_position weighted,
    t = DRandint lo hi (Gsc.impressions r) :: d
          :: DNormal mu sigma avg_position :: t' /\
    (if contains "best" query
     then mu == 3.5 /\ sigma == 1.5
     else mu == 8 /\ sigma == 4)%Q /\
    float_mul_int avg_position (Gsc.impressions r) = inr weighted /\
    int_of_float weighted = inr (Gsc.sum_position r).
Proof.
  intros H.
  apply gsc_row_Ok in H
    as (lo & hi & mu & sigma & ctr & mu2 & sigma2 & avg & product & weighted
        & truncated & -> & _ & Havg & _ & _ & _ & Hw & Hsum).
  exists lo, hi, (DNormal mu sigma ctr), mu2, sigma2, avg, weighted.
  repeat split; assumption.
Qed.

Lemma gsc_sum_position_truncates_witness :
  exists lo hi d mu sigma avg_position weighted,
    Samples.gsc_tape = DRandint lo hi 53 :: d :: DNormal mu sigma avg_position :: [] /\
    (mu == 8 /\ sigma == 4)%Q /\
    float_mul_int avg_position 53 = inr weighted /\
    int_of_float weighted = inr 39.
Proof.
  refine (gsc_sum_position_truncates START_DATE "knee pain"
            "/blog/knee-pain-causes-and-treatments/" "MOBILE"
            Samples.gsc_tape Samples.gsc_sample [] _).
  vm_compute. reflexivity.
Defined.

End GscFacts.


(** * Properties of the YouTube pass *)

Module YtFacts.
Import PyFloat Db Props.

Lemma yt_row_Ok current_date video_id video_meta t r t' :
  yt_row current_date video_id video_meta t = Ok r t' ->
  50 <= Yt.views r <= 1500 /\
  Yt.watch_time_msec r = Yt.views r * avg_view_sec video_meta * 1000 /\
  Yt.potential_watch_time_msec r = Yt.views r * duration_sec video_meta * 1000.
Proof.
  unfold yt_row. intros H.
  apply bind_Ok in H as (views & t1 & Hviews & H).
  apply randint_Ok in Hviews as [_ Hviews].
  apply bind_Ok in H as (age & t2 & _ & H).
  apply bind_Ok in H as (gender & t3 & _ & H).
  apply bind_Ok in H as (dev & t4 & _ & H).
  apply bind_Ok in H as (src & t5 & _ & H).
  apply bind_Ok in H as (likes & t6 & _ & H).
  apply bind_Ok in H as (shares & t7 & _ & H).
  apply bind_Ok in H as (comments & t8 & _ & H).
  apply bind_Ok in H as (subs & t9 & _ & H).
  apply mret_Ok in H as [<- _]. simpl. auto.
Qed.

(** Every row of the table comes from the loop body, run on an entry of
    the video catalog. *)
Lemma yt_data_rows cfg t tbl t' :
  yt_data cfg t = Ok tbl t' ->
  Forall (fun r => exists current_date video_id video_meta t1 t2,
              (video_id, video_meta) ∈ YT_VIDEOS cfg /\
              yt_row current_date video_id video_meta t1 = Ok r t2) tbl.
Proof.
  unfold yt_data.
  apply for_each_preserves; [constructor|].
  intros day s1 t1 s2 t2 _ Hs1 H.
  apply bind_Ok in H as (current_date & t3 & _ & H).
  revert H. apply for_each_preserves; [exact Hs1|].
  intros [video_id video_meta] s3 t4 s4 t5 Hin Hs3 H.
  apply bind_Ok in H as (r & t6 & Hrow & H).
  apply mret_Ok in H as [<- _].
  apply Forall_app. split; [exact Hs3|].
  constructor; [|constructor]. eauto 10.
Qed.

Lemma script_catalog_ok : catalog_ok script_config.
Proof. unfold catalog_ok. simpl. repeat constructor; simpl; lia. Qed.

(** C3: when every entry of the video catalog has avg_view_sec <=
    duration_sec, every generated YouTube row has watch_time_msec <=
    potential_watch_time_msec. *)
Theorem yt_watch_time_le_potential cfg t tbl t' :
  catalog_ok cfg ->
  yt_data cfg t = Ok tbl t' ->
  Forall (fun r => Yt.watch_time_msec r <= Yt.potential_watch_time_msec r) tbl.
Proof.
  intros Hcat Hrun. apply yt_data_rows in Hrun.
  eapply Forall_impl; [exact Hrun|]. simpl.
  intros r (current_date & video_id & video_meta & t1 & t2 & Hin & Hrow).
  apply yt_row_Ok in Hrow as (Hviews & -> & ->).
  unfold catalog_ok in Hcat. rewrite Forall_forall in Hcat.
  specialize (Hcat _ Hin). simpl in Hcat. nia.
Qed.

Lemma yt_watch_time_le_potential_witness :
  Forall (fun r => Yt.watch_time_msec r <= Yt.potential_watch_time_msec r)
    Samples.yt_table.
Proof.
  refine (yt_watch_time_le_potential Samples.one_day
            (Samples.yt_day_tape Samples.one_day) Samples.yt_table [] _ _).
  - exact script_catalog_ok.
  - vm_compute. reflexivity.
Defined.

End YtFacts.

(** * Sizes of the three tables *)

Module SizeFacts.
Import Db Props.

(** A loop whose every iteration appends exactly [n] rows. *)
Lemma for_each_adds {B R} (body : B -> list R -> Gen (list R)) (n : nat) xs s t s' t' :
  (forall x s1 t1 s2 t2, body x s1 t1 = Ok s2 t2 -> length s2 = (length s1 + n)%nat) ->
  for_each xs body s t = Ok s' t' ->
  length s' = (length s + n * length xs)%nat.
Proof.
  intros Hbody Hrun.
  apply (for_each_inv (fun k s1 => length s1 = (length s + n * k)%nat)
           body xs s t s' t'); [lia| |exact Hrun].
  intros k x s1 t1 s2 t2 _ Hk Hstep.
  rewrite (Hbody _ _ _ _ _ Hstep), Hk. lia.
Qed.

(** A loop whose every iteration appends between [lo] and [hi] rows. *)
Lemma for_each_adds_between {B R} (body : B -> list R -> Gen (list R))
    (lo hi : nat) xs s t s' t' :
  (forall x s1 t1 s2 t2, body x s1 t1 = Ok s2 t2 ->
      (length s1 + lo <= length s2 <= length s1 + hi)%nat) ->
  for_each xs body s t = Ok s' t' ->
  (length s + lo * length xs <= length s' <= length s + hi * length xs)%nat.
Proof.
  intros Hbody Hrun.
  apply (for_each_inv
           (fun k s1 => (length s + lo * k <= length s1 <= length s + hi * k)%nat)
           body xs s t s' t'); [lia| |exact Hrun].
  intros k x s1 t1 s2 t2 _ Hk Hstep.
  specialize (Hbody _ _ _ _ _ Hstep). lia.
Qed.

Lemma append_row_adds {R} (gen : Gen R) (s : list R) t s' t' :
  (row ← gen; mret (s ++ [row])) t = Ok s' t' -> length s' = (length s + 1)%nat.
Proof.
  intros H. apply bind_Ok in H as (row & t1 & _ & H).
  apply mret_Ok in H as [<- _]. rewrite length_app. reflexivity.
Qed.

Lemma gsc_data_length cfg t tbl t' :
  gsc_data cfg t = Ok tbl t' ->
  length tbl = (2 * length (GSC_QUERIES cfg) * length (range (NUM_DAYS cfg)))%nat.
Proof.
  unfold gsc_data. intros H.
  apply for_each_adds with (n := (2 * length (GSC_QUERIES cfg))%nat) in H;
    [exact H|].
  intros day s1 t1 s2 t2 Hday.
  apply bind_Ok in Hday as (current_date & t3 & _ & Hday).
  apply for_each_adds with (n := 2%nat) in Hday; [lia|].
  intros [query page] s3 t4 s4 t5 Hq.
  apply for_each_adds with (n := 1%nat) in Hq; [simpl in Hq; lia|].
  intros device s5 t6 s6 t7. apply append_row_adds.
Qed.

Lemma yt_data_length cfg t tbl t' :
  yt_data cfg t = Ok tbl t' ->
  length tbl = (length (YT_VIDEOS cfg) * length (range (NUM_DAYS cfg)))%nat.
Proof.
  unfold yt_data. intros H.
  apply for_each_adds with (n := length (YT_VIDEOS cfg)) in H; [exact H|].
  intros day s1 t1 s2 t2 Hday.
  apply bind_Ok in Hday as (current_date & t3 & _ & Hday).
  apply for_each_adds with (n := 1%nat) in Hday; [lia|].
  intros [video_id video_meta] s3 t4 s4 t5. apply append_row_adds.
Qed.

Lemma ga_sessions_data_length cfg t tbl t' :
  ga_sessions_data cfg t = Ok tbl t' ->
  (200 * length (range (NUM_DAYS cfg)) <= length tbl
     <= 1000 * length (range (NUM_DAYS cfg)))%nat.
Proof.
  unfold ga_sessions_data. intros H.
  apply for_each_adds_between with (lo := 200%nat) (hi := 1000%nat) in H;
    [exact H|].
  intros day s1 t1 s2 t2 Hday.
  apply bind_Ok in Hday as (current_date & t3 & _ & Hday).
  apply bind_Ok in Hday as (num_sessions_today & t4 & Hnum & Hday).
  apply randint_Ok in Hnum as [_ Hnum].
  apply for_each_adds with (n := 1%nat) in Hday.
  - assert (Z.of_nat (length (range num_sessions_today)) = num_sessions_today)
      by (apply length_range; lia).
    lia.
  - intros i s3 t5 s4 t6. apply append_row_adds.
Qed.

(** A loop whose iteration on [x] appends rows with the keys [f x]. *)
Lemma for_each_appends {B R K} (key : R -> K) (f : B -> list K)
    (body : B -> list R -> Gen (list R)) xs s t s' t' :
  (forall x s1 t1 s2 t2, body x s1 t1 = Ok s2 t2 ->
      exists rows, s2 = s1 ++ rows /\ key <$> rows = f x) ->
  for_each xs body s t = Ok s' t' ->
  exists rows, s' = s ++ rows /\ key <$> rows = xs ≫= f.
Proof.
  intros Hbody Hrun.
  assert (exists rows, s' = s ++ rows /\ key <$> rows = take (length xs) xs ≫= f)
    as (rows & Hs & Hk).
  { apply (for_each_inv
             (fun k s1 => exists rows, s1 = s ++ rows /\ key <$> rows = take k xs ≫= f)
             body xs s t s' t'); [| |exact Hrun].
    - exists []. rewrite app_nil_r. auto.
    - intros k x s1 t1 s2 t2 Hx (rows & -> & Hk) Hstep.
      apply Hbody in Hstep as (rows' & -> & Hk').
      exists (rows ++ rows'). split; [symmetry; apply app_assoc|].
      rewrite fmap_app, (take_S_r _ _ _ Hx), bind_app, bind_singleton.
      congruence. }
  exists rows. rewrite take_ge in Hk by lia. auto.
Qed.

Lemma day_start_Ok day current_date :
  day_start day = inr current_date -> current_date = START_DATE + day * 86400.
Proof.
  unfold day_start, PyTime.add, PyTime.timedelta.
  replace (day * 86400 + 0) with (day * 86400) by lia.
  destruct (Z.abs (day * 86400 / 86400) <=? 999999999); [|discriminate].
  destruct ((0 <=? START_DATE + day * 86400)
            && (START_DATE + day * 86400 <=? PyTime.max_second)); [|discriminate].
  intros H. inversion H. reflexivity.
Qed.

Lemma gsc_row_key current_date query page device t r t' :
  gsc_row current_date query page device t = Ok r t' ->
  gsc_key r = (PyTime.date_of current_date, query, device).
Proof.
  unfold gsc_row. intros H.
  apply bind_Ok in H as (imp & t1 & _ & H).
  apply bind_Ok in H as (ctr & t2 & _ & H).
  apply bind_Ok in H as (product & t3 & _ & H).
  apply bind_Ok in H as (truncated & t4 & _ & H).
  apply bind_Ok in H as (avg & t5 & _ & H).
  apply bind_Ok in H as (weighted & t6 & _ & H).
  apply bind_Ok in H as (sum & t7 & _ & H).
  apply mret_Ok in H as [<- _]. reflexivity.
Qed.

Lemma gsc_data_keys cfg t tbl t' :
  gsc_data cfg t = Ok tbl t' -> gsc_key <$> tbl = gsc_keys cfg.
Proof.
  unfold gsc_data, gsc_keys. intros H.
  eapply for_each_appends in H as (rows & -> & Hk); [exact Hk|].
  intros day s1 t1 s2 t2 Hday.
  apply bind_Ok in Hday as (current_date & t3 & Hdate & Hday).
  apply lift_Ok in Hdate as [Hdate ->]. apply day_start_Ok in Hdate as ->.
  eapply for_each_appends in Hday as (rows & -> & Hk);
    [exists rows; split; [reflexivity | exact Hk]|].
  intros [query page] s3 t4 s4 t5 Hq.
  eapply for_each_appends in Hq as (rows & -> & Hk);
    [exists rows; split; [reflexivity | exact Hk]|].
  intros device s5 t6 s6 t7 Hrow.
  apply bind_Ok in Hrow as (r & t8 & Hr & Hrow).
  apply mret_Ok in Hrow as [<- _].
  exists [r]. split; [reflexivity|].
  simpl. rewrite (gsc_row_key _ _ _ _ _ _ _ Hr). reflexivity.
Qed.

(** C4: a run over NUM_DAYS days leaves a GSC table of exactly NUM_DAYS *
    |query catalog| * 2 rows, one per (day, query, device) with device
    MOBILE or DESKTOP, a YouTube table of exactly NUM_DAYS * |video
    catalog| rows and a GA table of between NUM_DAYS * 200 and NUM_DAYS *
    1000 rows. *)
Theorem table_sizes cfg t gsc yt ga t' :
  0 <= NUM_DAYS cfg ->
  generate cfg t = Ok (gsc, yt, ga) t' ->
  Z.of_nat (length gsc) = NUM_DAYS cfg * Z.of_nat (length (GSC_QUERIES cfg)) * 2 /\
  gsc_key <$> gsc = gsc_keys cfg /\
  Z.of_nat (length yt) = NUM_DAYS cfg * Z.of_nat (length (YT_VIDEOS cfg)) /\
  NUM_DAYS cfg * 200 <= Z.of_nat (length ga) <= NUM_DAYS cfg * 1000.
Proof.
  intros Hdays H. unfold generate in H.
  apply bind_Ok in H as (gsc0 & t1 & Hgsc & H).
  apply bind_Ok in H as (yt0 & t2 & Hyt & H).
  apply bind_Ok in H as (ga0 & t3 & Hga & H).
  apply mret_Ok in H as [H _]. inversion H; subst gsc0 yt0 ga0.
  pose proof (gsc_data_keys _ _ _ _ Hgsc) as Hkeys.
  apply gsc_data_length in Hgsc. apply yt_data_length in Hyt.
  apply ga_sessions_data_length in Hga.
  pose proof (length_range (NUM_DAYS cfg) Hdays) as Hlen.
  split; [nia|]. split; [exact Hkeys|]. split; nia.
Qed.

Lemma table_sizes_witness :
  Z.of_nat (length Samples.gsc_table) = 1 * 9 * 2 /\
  gsc_key <$> Samples.gsc_table = gsc_keys Samples.one_day /\
  Z.of_nat (length Samples.yt_table) = 1 * 3 /\
  1 * 200 <= Z.of_nat (length Samples.ga_table) <= 1 * 1000.
Proof.
  refine (table_sizes Samples.one_day Samples.one_day_tape
            Samples.gsc_table Samples.yt_table Samples.ga_table [] _ _).
  - simpl. lia.
  - vm_compute. reflexivity.
Defined.

(** The scale scenario: the script's own configuration, 90 days. *)
Corollary script_table_sizes t gsc yt ga t' :
  generate script_config t = Ok (gsc, yt, ga) t' ->
  Z.of_nat (length gsc) = 1620 /\ Z.of_nat (length yt) = 270 /\
  18000 <= Z.of_nat (length ga) <= 90000.
Proof.
  intros H. unfold generate in H.
  apply bind_Ok in H as (gsc0 & t1 & Hgsc & H).
  apply bind_Ok in H as (yt0 & t2 & Hyt & H).
  apply bind_Ok in H as (ga0 & t3 & Hga & H).
  apply mret_Ok in H as [H _]. inversion H; subst gsc0 yt0 ga0.
  apply gsc_data_length in Hgsc. apply yt_data_length in Hyt.
  apply ga_sessions_data_length in Hga.
  assert (Z.of_nat (length (range (NUM_DAYS script_config))) = 90) as Hlen
    by (apply length_range; simpl; lia).
  assert (length (GSC_QUERIES script_config) = 9%nat) as Hq by reflexivity.
  assert (length (YT_VIDEOS script_config) = 3%nat) as Hv by reflexivity.
  rewrite Hq in Hgsc. rewrite Hv in Hyt. lia.
Qed.

(** Such a run exists: ninety recorded days drive the script to its end. *)
Example script_run_completes :
  completes (generate script_config Samples.script_tape) = true.
Proof. vm_compute. reflexivity. Qed.

End SizeFacts.

(** * Properties of the GA pass *)

Module GaFacts.
Import PyTime Db Props.

Lemma filter_pages_count hits :
  Z.of_nat (length (filter (fun h => Ga.type h = Ga.PAGE) hits)) = count_pages hits.
Proof.
  induction hits as [|h hits IH]; [reflexivity|].
  simpl. rewrite <- IH.
  destruct (Ga.type h) eqn:E.
  - rewrite filter_cons_True by exact E. simpl. lia.
  - rewrite filter_cons_False by congruence. lia.
Qed.

Lemma add_seconds_Ok dt s dt' :
  add dt (timedelta 0 s) = inr dt' -> dt' = dt + s.
Proof.
  unfold add, timedelta. replace (0 * 86400 + s) with s by lia.
  destruct (Z.abs (s / 86400) <=? 999999999); [|discriminate].
  destruct ((0 <=? dt + s) && (dt + s <=? max_second)); [|discriminate].
  intros H. inversion H. reflexivity.
Qed.

Lemma numbered_snoc hits h :
  numbered hits -> Ga.hit_number h = Z.of_nat (length hits) + 1 ->
  numbered (hits ++ [h]).
Proof.
  unfold numbered. intros Hn Hh.
  rewrite fmap_app, length_app, Hn. simpl.
  rewrite seq_app, fmap_app. simpl. f_equal. f_equal. lia.
Qed.

Lemma timed_snoc hits h last :
  timed hits -> Forall (fun h0 => Ga.hit_time h0 <= last) hits ->
  last <= Ga.hit_time h ->
  timed (hits ++ [h]).
Proof.
  unfold timed. intros Ht Hlast Hh. rewrite fmap_app.
  apply StronglySorted_app_2.
  - intros x1 x2 H1 H2. apply list_elem_of_fmap in H1 as (h1 & -> & H1).
    simpl in H2. apply list_elem_of_singleton in H2 as ->.
    rewrite Forall_forall in Hlast. specialize (Hlast _ H1). simpl in Hlast. lia.
  - exact Ht.
  - simpl. repeat constructor.
Qed.

Lemma journey_inv_snoc hits last h :
  journey_inv (hits, last) ->
  Ga.hit_number h = Z.of_nat (length hits) + 1 ->
  last <= Ga.hit_time h ->
  journey_inv (hits ++ [h], Ga.hit_time h).
Proof.
  intros (Hn & Ht & Hl) Hnum Htime. repeat split; simpl in *.
  - apply numbered_snoc; assumption.
  - eapply timed_snoc; eassumption.
  - apply Forall_app. split.
    + eapply Forall_impl; [exact Hl|]. simpl. intros. lia.
    + repeat constructor. lia.
Qed.

Lemma additional_hit_Ok cfg i hits last t st' t' :
  additional_hit cfg i (hits, last) t = Ok st' t' ->
  exists seconds page_path page_title,
    30 <= seconds <= 120 /\
    st' = (hits ++ [page_hit (i + 2) (last + seconds) page_path page_title],
           last + seconds).
Proof.
  unfold additional_hit. intros H.
  apply bind_Ok in H as (seconds & t1 & Hs & H).
  apply randint_Ok in Hs as [_ Hs].
  apply bind_Ok in H as (hit_time & t2 & Htime & H).
  apply lift_Ok in Htime as [Htime _]. apply add_seconds_Ok in Htime as ->.
  apply bind_Ok in H as ([page_path page_title] & t3 & _ & H).
  apply mret_Ok in H as [<- _]. eauto 10.
Qed.

Lemma maybe_conversion_Ok hits last t st' t' :
  maybe_conversion (hits, last) t = Ok st' t' ->
  st' = (hits, last) \/
  exists seconds,
    10 <= seconds <= 30 /\
    st' = (hits ++ [conversion_hit (Z.of_nat (length hits) + 1) (last + seconds)],
           last + seconds).
Proof.
  unfold maybe_conversion. intros H.
  apply bind_Ok in H as (roll & t1 & _ & H).
  destruct (roll <? 0.2)%float.
  - right.
    apply bind_Ok in H as (seconds & t2 & Hs & H).
    apply randint_Ok in Hs as [_ Hs].
    apply bind_Ok in H as (hit_time & t3 & Htime & H).
    apply lift_Ok in Htime as [Htime _]. apply add_seconds_Ok in Htime as ->.
    apply mret_Ok in H as [<- _]. eauto.
  - left. apply mret_Ok in H as [<- _]. reflexivity.
Qed.

(** The additional page views: after [n] of them there are [n + 1] hits. *)
Lemma additional_hits_Ok cfg n first start t st' t' :
  Ga.hit_number first = 1 -> Ga.hit_time first = start ->
  for_each (range n) (additional_hit cfg) ([first], start) t = Ok st' t' ->
  length st'.1 = S (length (range n)) /\ journey_inv st'.
Proof.
  intros Hnum Htime.
  apply (for_each_inv (fun k st => length st.1 = S k /\ journey_inv st)).
  - split; [reflexivity|]. repeat split; simpl.
    + unfold numbered. simpl. rewrite Hnum. reflexivity.
    + unfold timed. simpl. repeat constructor.
    + repeat constructor. lia.
  - intros k i [hits last] t1 st2 t2 Hi [Hlen Hinv] Hstep.
    apply lookup_range in Hi as ->.
    apply additional_hit_Ok in Hstep
      as (seconds & page_path & page_title & Hs & ->).
    simpl in Hlen. split.
    + simpl. rewrite length_app, Hlen. simpl. lia.
    + apply (journey_inv_snoc hits last
               (page_hit (Z.of_nat k + 2) (last + seconds) page_path page_title));
        [exact Hinv | simpl; lia | simpl; lia].
Qed.

(** What a journey returns, whatever the draws. *)
Lemma journey_Ok cfg start t hits is_bounce time_on_site t' :
  journey cfg start t = Ok (hits, is_bounce, time_on_site) t' ->
  numbered hits /\ timed hits /\ (is_bounce = true <-> length hits = 1%nat).
Proof.
  unfold journey. intros H.
  apply bind_Ok in H as ([page_path page_title] & t1 & _ & H).
  apply bind_Ok in H as (roll & t2 & _ & H).
  destruct (roll <? 0.65)%float; simpl in H.
  - apply bind_Ok in H as (tos & t3 & _ & H).
    apply mret_Ok in H as [H _]. inversion H; subst.
    repeat split; auto.
    unfold timed. simpl. repeat constructor.
  - apply bind_Ok in H as (n & t3 & Hn & H).
    apply randint_Ok in Hn as [_ Hn].
    apply bind_Ok in H as ([hits1 last1] & t4 & Hloop & H).
    apply additional_hits_Ok in Hloop as [Hlen Hinv]; [|reflexivity..].
    simpl in Hlen.
    assert (Z.of_nat (length (range n)) = n) as Hrange by (apply length_range; lia).
    apply bind_Ok in H as ([hits2 last2] & t5 & Hconv & H).
    apply mret_Ok in H as [H _]. inversion H; subst hits2 is_bounce time_on_site.
    apply maybe_conversion_Ok in Hconv as [Hconv | (seconds & Hs & Hconv)];
      inversion Hconv; subst hits last2.
    + destruct Hinv as (Hnum & Htime & _). simpl in *.
      repeat split; auto; [discriminate | lia].
    + pose proof (journey_inv_snoc hits1 last1
                    (conversion_hit (Z.of_nat (length hits1) + 1) (last1 + seconds))
                    Hinv) as (Hnum & Htime & _); [reflexivity | simpl; lia |].
      simpl in *. repeat split; auto; [discriminate |].
      rewrite length_app. simpl. lia.
Qed.

Example engaged_session :
  ga_session Samples.one_day START_DATE Samples.engaged_tape
    = Ok Samples.engaged_row [].
Proof. vm_compute. reflexivity. Qed.

(** A row and the journey it records. *)
Lemma ga_session_Ok cfg current_date t r t' :
  ga_session cfg current_date t = Ok r t' ->
  exists start is_bounce time_on_site t1 t2,
    journey cfg start t1 = Ok (Ga.hits r, is_bounce, time_on_site) t2 /\
    Ga.pageviews (Ga.totals r)
      = Z.of_nat (length (filter (fun h => Ga.type h = Ga.PAGE) (Ga.hits r))) /\
    Ga.bounces (Ga.totals r) = (if is_bounce then 1 else 0).
Proof.
  unfold ga_session. intros H.
  apply bind_Ok in H as (seconds & t1 & _ & H).
  apply bind_Ok in H as (start & t2 & _ & H).
  apply bind_Ok in H as (user_id & t3 & _ & H).
  apply bind_Ok in H as (session_id & t4 & _ & H).
  apply bind_Ok in H as ([source medium] & t5 & _ & H).
  apply bind_Ok in H as ([[hits is_bounce] time_on_site] & t6 & Hj & H).
  apply bind_Ok in H as (device_category & t7 & _ & H).
  apply bind_Ok in H as (browser & t8 & _ & H).
  apply bind_Ok in H as (operating_system & t9 & _ & H).
  apply bind_Ok in H as (city & t10 & _ & H).
  apply mret_Ok in H as [<- _]. simpl. eauto 10.
Qed.

(** Every row of the table comes from the session generator. *)
Lemma ga_sessions_data_rows cfg t tbl t' :
  ga_sessions_data cfg t = Ok tbl t' ->
  Forall (fun r => exists current_date t1 t2,
              ga_session cfg current_date t1 = Ok r t2) tbl.
Proof.
  unfold ga_sessions_data.
  apply for_each_preserves; [constructor|].
  intros day s1 t1 s2 t2 _ Hs1 H.
  apply bind_Ok in H as (current_date & t3 & _ & H).
  apply bind_Ok in H as (num_sessions_today & t4 & _ & H).
  revert H. apply for_each_preserves; [exact Hs1|].
  intros i s3 t5 s4 t6 _ Hs3 H.
  apply bind_Ok in H as (r & t7 & Hrow & H).
  apply mret_Ok in H as [<- _].
  apply Forall_app. split; [exact Hs3|].
  constructor; [|constructor]. eauto.
Qed.

(** C1: on every generated GA session row, totals.pageviews is the number
    of PAGE hits of the row's hits. *)
Theorem ga_pageviews_count cfg t tbl t' :
  ga_sessions_data cfg t = Ok tbl t' ->
  Forall (fun r => Ga.pageviews (Ga.totals r) = count_pages (Ga.hits r)) tbl.
Proof.
  intros Hrun. apply ga_sessions_data_rows in Hrun.
  eapply Forall_impl; [exact Hrun|]. simpl.
  intros r (current_date & t1 & t2 & Hrow).
  apply ga_session_Ok in Hrow as (_ & _ & _ & _ & _ & _ & -> & _).
  apply filter_pages_count.
Qed.

Lemma ga_pageviews_count_witness :
  Forall (fun r => Ga.pageviews (Ga.totals r) = count_pages (Ga.hits r))
    Samples.ga_table.
Proof.
  refine (ga_pageviews_count Samples.one_day Samples.ga_day_tape
            Samples.ga_table [] _).
  vm_compute. reflexivity.
Defined.

(** C2: on every generated GA session row, totals.bounces is 1 exactly
    when the row has a single hit; no row has bounces 0 and a single hit. *)
Theorem ga_bounce_iff_single_hit cfg t tbl t' :
  ga_sessions_data cfg t = Ok tbl t' ->
  Forall (fun r =>
            (Ga.bounces (Ga.totals r) = 1 <-> length (Ga.hits r) = 1%nat) /\
            ~ (Ga.bounces (Ga.totals r) = 0 /\ length (Ga.hits r) = 1%nat)) tbl.
Proof.
  intros Hrun. apply ga_sessions_data_rows in Hrun.
  eapply Forall_impl; [exact Hrun|]. simpl.
  intros r (current_date & t1 & t2 & Hrow).
  apply ga_session_Ok in Hrow
    as (start & is_bounce & tos & t3 & t4 & Hj & _ & ->).
  apply journey_Ok in Hj as (_ & _ & Hb).
  destruct is_bounce; split.
  - tauto.
  - intros [? _]. discriminate.
  - split; [discriminate|]. intros Hl. apply Hb in Hl. discriminate.
  - intros [_ Hl]. apply Hb in Hl. discriminate.
Qed.

Lemma ga_bounce_iff_single_hit_witness :
  Forall (fun r =>
            (Ga.bounces (Ga.totals r) = 1 <-> length (Ga.hits r) = 1%nat) /\
            ~ (Ga.bounces (Ga.totals r) = 0 /\ length (Ga.hits r) = 1%nat))
    Samples.ga_table.
Proof.
  refine (ga_bounce_iff_single_hit Samples.one_day Samples.ga_day_tape
            Samples.ga_table [] _).
  vm_compute. reflexivity.
Defined.

(** C7: on every generated GA session, the hit numbers are exactly 1, 2,
    ..., len(hits) in order, and the hit times never decrease along the
    sequence. *)
Theorem ga_hits_numbered_and_timed cfg t tbl t' :
  ga_sessions_data cfg t = Ok tbl t' ->
  Forall (fun r => numbered (Ga.hits r) /\ timed (Ga.hits r)) tbl.
Proof.
  intros Hrun. apply ga_sessions_data_rows in Hrun.
  eapply Forall_impl; [exact Hrun|]. simpl.
  intros r (current_date & t1 & t2 & Hrow).
  apply ga_session_Ok in Hrow
    as (start & is_bounce & tos & t3 & t4 & Hj & _ & _).
  apply journey_Ok in Hj as (Hn & Ht & _). auto.
Qed.

Lemma ga_hits_numbered_and_timed_witness :
  Forall (fun r => numbered (Ga.hits r) /\ timed (Ga.hits r)) Samples.ga_table.
Proof.
  refine (ga_hits_numbered_and_timed Samples.one_day Samples.ga_day_tape
            Samples.ga_table [] _).
  vm_compute. reflexivity.
Defined.

End GaFacts.

(** * The query-execution boundary *)

Module AgentFacts.
Import Agent.

(** Counterexample to C8 as stated: without a client the call raises. *)
Lemma execute_bq_query_raises_without_client :
  execute_bq_query (V := Z) None "SELECT 1"
    = inl (Exception "BigQuery client is not available.").
Proof. reflexivity. Qed.

(** C8, amended: with a client, every SQL text gets either the rows or
    the dict {error: message}, and a failure of the query never raises;
    without a client the call raises Exception("BigQuery client is not
    available."). *)
Theorem execute_bq_query_contract {V : Type} (bq_client : option (client (V := V)))
    (query : string) :
  match bq_client with
  | Some c =>
      match c query with
      | inr results =>
          execute_bq_query bq_client query
            = inr (Rows ((fun row => list_to_map row) <$> results))
      | inl message => execute_bq_query bq_client query = inr (ErrorDict message)
      end
  | None =>
      execute_bq_query bq_client query
        = inl (Exception "BigQuery client is not available.")
  end.
Proof.
  destruct bq_client as [c|]; simpl; [|reflexivity].
  destruct (c query); reflexivity.
Qed.

End AgentFacts.

(** * The content API *)

Module AppFacts.
Import App Props.

Lemma has_fields_initial : has_fields WEBSITE_METADATA.
Proof. unfold has_fields, content_fields. repeat constructor; vm_compute; eauto. Qed.

Lemma truthy_obj fields : truthy (JObj fields) = false <-> fields = ∅.
Proof.
  simpl. rewrite negb_false_iff, Nat.eqb_eq. apply map_size_empty_iff.
Qed.

(** One assignment on a store that has the key. *)
Lemma assign_field_obj fields key store :
  is_Some (store !! key) ->
  assign_field (JObj fields) key (inr tt, store)
    = (inr tt, <[key := default (store !!! key) (fields !! key)]> store).
Proof.
  intros [old Hold]. unfold assign_field, read. rewrite Hold. simpl.
  rewrite (lookup_total_correct _ _ _ Hold). reflexivity.
Qed.

(** The store a dict request leaves behind, and the response. *)
Lemma update_metadata_obj fields store :
  has_fields store -> fields <> ∅ ->
  update_metadata (JObj fields) store
    = (inr {| body := jsonify [("status", "success");
                               ("message", "Website content updated.")];
              status_code := 200 |},
       <["page_paragraph" := default (store !!! "page_paragraph") (fields !! "page_paragraph")]>
         (<["page_h1" := default (store !!! "page_h1") (fields !! "page_h1")]>
            (<["description" := default (store !!! "description") (fields !! "description")]>
               (<["title" := default (store !!! "title") (fields !! "title")]> store)))).
Proof.
  intros Hstore Hne. unfold has_fields, content_fields in Hstore.
  rewrite !Forall_cons in Hstore.
  destruct Hstore as (Ht & Hd & Hh & Hp & _).
  unfold update_metadata.
  destruct (truthy (JObj fields)) eqn:E;
    [|apply truthy_obj in E; contradiction].
  simpl negb. cbv iota.
  rewrite (assign_field_obj fields "title" store Ht).
  rewrite assign_field_obj by (rewrite lookup_insert_ne by done; exact Hd).
  rewrite assign_field_obj by (rewrite !lookup_insert_ne by done; exact Hh).
  rewrite assign_field_obj by (rewrite !lookup_insert_ne by done; exact Hp).
  rewrite !lookup_total_insert_ne by done. reflexivity.
Qed.

(** A truthy document that is not an object has no [get]: the first
    assignment raises and the store is left as it was. *)
Lemma update_metadata_not_obj data store :
  has_fields store -> truthy data = true ->
  (forall fields, data <> JObj fields) ->
  update_metadata data store = (inl AttributeError, store).
Proof.
  intros Hstore Ht Hno. unfold has_fields, content_fields in Hstore.
  apply Forall_cons in Hstore as [[old Hold] _].
  unfold update_metadata. rewrite Ht. simpl negb. cbv iota.
  assert (assign_field data "title" (inr tt, store) = (inl AttributeError, store))
    as ->.
  { unfold assign_field, read. rewrite Hold.
    destruct data; try reflexivity. exfalso. eapply Hno. reflexivity. }
  reflexivity.
Qed.

(** Whatever the request, the store keeps its four fields. *)
Lemma update_metadata_keeps_fields data store :
  has_fields store -> has_fields (update_metadata data store).2.
Proof.
  intros Hstore.
  destruct (truthy data) eqn:Ht.
  - destruct data as [| b | z | x | str | items | fields];
      try (rewrite update_metadata_not_obj by (auto; discriminate); exact Hstore).
    rewrite update_metadata_obj; [|exact Hstore|].
    + simpl. unfold has_fields in *. eapply Forall_impl; [exact Hstore|].
      simpl. intros key Hk. rewrite !lookup_insert_is_Some'. auto.
    + intros ->. rewrite (proj2 (truthy_obj ∅) eq_refl) in Ht. discriminate.
  - unfold update_metadata. rewrite Ht. exact Hstore.
Qed.

(** The read endpoint hands the four stored values to the template. *)
Lemma homepage_reads store :
  has_fields store ->
  homepage store = inr [store !!! "title"; store !!! "description";
                        store !!! "page_h1"; store !!! "page_paragraph"].
Proof.
  unfold has_fields, content_fields. rewrite !Forall_cons.
  intros ([t Ht] & [d Hd] & [h Hh] & [p Hp] & _).
  unfold homepage, read. rewrite Ht, Hd, Hh, Hp.
  rewrite (lookup_total_correct _ _ _ Ht), (lookup_total_correct _ _ _ Hd),
    (lookup_total_correct _ _ _ Hh), (lookup_total_correct _ _ _ Hp).
  reflexivity.
Qed.

(** C9: for a request that is a JSON object, each of the four fields
    present in the request replaces the stored value, and each of the
    four fields omitted leaves the stored value as it was. *)
Theorem update_metadata_fields (fields : gmap string json)
    (store : gmap string json) (key : string) :
  has_fields store ->
  key ∈ content_fields ->
  (update_metadata (JObj fields) store).2 !! key
    = match fields !! key with
      | Some v => Some v
      | None => store !! key
      end.
Proof.
  intros Hstore Hkey.
  destruct (decide (fields = ∅)) as [->|Hne].
  - unfold update_metadata.
    replace (truthy (JObj ∅)) with false by (symmetry; apply truthy_obj; reflexivity).
    simpl. rewrite lookup_empty. reflexivity.
  - rewrite update_metadata_obj by assumption. simpl.
    pose proof Hstore as Hs. unfold has_fields in Hs.
    rewrite Forall_forall in Hs. destruct (Hs _ Hkey) as [old Hold].
    unfold content_fields in Hkey.
    repeat (apply elem_of_cons in Hkey as [->|Hkey]);
      [ | | | | by apply elem_of_nil in Hkey];
      repeat first [rewrite lookup_insert_eq | rewrite lookup_insert_ne by done];
      rewrite (lookup_total_correct _ _ _ Hold);
      destruct (fields !! _); simpl; congruence.
Qed.

Lemma update_metadata_fields_witness :
  (update_metadata (JObj {["title" := JStr "Orthopedics | Apollo"]})
     WEBSITE_METADATA).2 !! "description"
  = match ({["title" := JStr "Orthopedics | Apollo"]} : gmap string json) !! "description" with
    | Some v => Some v
    | None => WEBSITE_METADATA !! "description"
    end.
Proof.
  refine (update_metadata_fields {["title" := JStr "Orthopedics | Apollo"]}
            WEBSITE_METADATA "description" _ _).
  - exact has_fields_initial.
  - unfold content_fields. apply elem_of_cons. right. apply elem_of_cons. left.
    reflexivity.
Defined.

(** C10: a POST whose body is the empty JSON object is answered with the
    400 "Missing JSON payload" error, not with the success response, and
    the store is left as it was. *)
Theorem update_metadata_empty_object (store : gmap string json) :
  update_metadata (JObj ∅) store
    = (inr {| body := jsonify [("status", "error");
                               ("message", "Missing JSON payload")];
              status_code := 400 |}, store).
Proof.
  unfold update_metadata.
  replace (truthy (JObj ∅)) with false by (symmetry; apply truthy_obj; reflexivity).
  reflexivity.
Qed.

End AppFacts.

(** * The shape of the GA rows *)

Module GaShape.
Import PyTime Db Props Shape.

Lemma getitem_keys {V} (d : list (string * V)) k v :
  getitem d k = inr v -> (k, v) ∈ d.
Proof.
  induction d as [|[k' v'] d IH]; simpl; [discriminate|].
  destruct (String.eqb k' k) eqn:E.
  - apply String.eqb_eq in E as ->. intros H. inversion H. left.
  - intros H. right. auto.
Qed.

Lemma pick_page_Ok cfg t page_path page_title t' :
  pick_page cfg t = Ok (page_path, page_title) t' -> page_ok cfg page_path page_title.
Proof.
  unfold pick_page. intros H.
  apply bind_Ok in H as (path & t1 & Hpath & H).
  apply choice_Ok in Hpath as (i & _ & Hi).
  apply bind_Ok in H as (title & t2 & Htitle & H).
  apply lift_Ok in Htitle as [Htitle _].
  apply mret_Ok in H as [H _]. inversion H; subst.
  split; [|exact Htitle]. apply list_elem_of_lookup. eauto.
Qed.

Lemma page_views_snoc last n steps seconds page_path page_title :
  page_views last n (steps ++ [(seconds, page_path, page_title)])
  = page_views last n steps
      ++ [page_hit (n + Z.of_nat (length steps)) (last + elapsed steps + seconds)
            page_path page_title].
Proof.
  revert last n. induction steps as [|[[s p] ti] steps IH]; intros last n; simpl.
  - replace (n + Z.of_nat 0) with n by lia.
    replace (last + 0 + seconds) with (last + seconds) by lia. reflexivity.
  - rewrite IH.
    replace (n + 1 + Z.of_nat (length steps)) with (n + Z.of_nat (S (length steps))) by lia.
    replace (last + s + elapsed steps + seconds)
      with (last + (s + elapsed steps) + seconds) by lia.
    reflexivity.
Qed.

Lemma elapsed_snoc steps st : elapsed (steps ++ [st]) = elapsed steps + st.1.1.
Proof.
  induction steps as [|[[s p] ti] steps IH]; simpl.
  - destruct st as [[s p] ti]. simpl. lia.
  - rewrite IH. lia.
Qed.

Lemma length_page_views last n steps : length (page_views last n steps) = length steps.
Proof.
  revert last n. induction steps as [|[[s p] ti] steps IH]; intros; simpl; auto.
Qed.

(** The additional page views, as the steps that were drawn. *)
Lemma additional_hits_steps cfg n first start t hits last t' :
  for_each (range n) (additional_hit cfg) ([first], start) t = Ok (hits, last) t' ->
  exists steps,
    length steps = length (range n) /\ Forall (step_ok cfg) steps /\
    hits = first :: page_views start 2 steps /\ last = start + elapsed steps.
Proof.
  intros H.
  apply (for_each_inv
           (fun k st => exists steps,
                length steps = k /\ Forall (step_ok cfg) steps /\
                st.1 = first :: page_views start 2 steps /\
                st.2 = start + elapsed steps)) in H.
  - exact H.
  - exists []. simpl. repeat split; auto. lia.
  - intros k i [hits1 last1] t1 [hits2 last2] t2 Hi (steps & <- & Hok & Hh & Hl) Hstep.
    simpl in Hh, Hl. subst hits1 last1.
    apply lookup_range in Hi as ->.
    unfold additional_hit in Hstep.
    apply bind_Ok in Hstep as (seconds & t3 & Hs & Hstep).
    apply randint_Ok in Hs as [_ Hs].
    apply bind_Ok in Hstep as (hit_time & t4 & Htime & Hstep).
    apply lift_Ok in Htime as [Htime _]. apply GaFacts.add_seconds_Ok in Htime as ->.
    apply bind_Ok in Hstep as ([page_path page_title] & t5 & Hpage & Hstep).
    apply pick_page_Ok in Hpage.
    apply mret_Ok in Hstep as [Hstep _]. inversion Hstep; subst hits2 last2.
    exists (steps ++ [(seconds, page_path, page_title)]). simpl.
    rewrite length_app, page_views_snoc, elapsed_snoc. simpl.
    repeat split.
    + lia.
    + apply Forall_app. split; [exact Hok|].
      apply Forall_singleton. split; [simpl; lia | exact Hpage].
    + do 4 f_equal. unfold step. lia.
    + lia.
Qed.

(** Every journey has one of the three shapes. *)
Lemma journey_has_shape cfg start t hits is_bounce time_on_site t' :
  journey cfg start t = Ok (hits, is_bounce, time_on_site) t' ->
  journey_shape cfg start hits is_bounce time_on_site.
Proof.
  unfold journey. intros H.
  apply bind_Ok in H as ([page_path page_title] & t1 & Hpage & H).
  apply pick_page_Ok in Hpage.
  apply bind_Ok in H as (roll & t2 & _ & H).
  destruct (roll <? 0.65)%float; simpl in H.
  - apply bind_Ok in H as (tos & t3 & Htos & H).
    apply randint_Ok in Htos as [_ Htos].
    apply mret_Ok in H as [H _]. inversion H; subst.
    constructor; assumption.
  - apply bind_Ok in H as (n & t3 & Hn & H).
    apply randint_Ok in Hn as [_ Hn].
    apply bind_Ok in H as ([hits1 last1] & t4 & Hloop & H).
    apply additional_hits_steps in Hloop as (steps & Hlen & Hok & -> & ->).
    assert (Z.of_nat (length (range n)) = n) as Hrange by (apply length_range; lia).
    apply bind_Ok in H as ([hits2 last2] & t5 & Hconv & H).
    apply mret_Ok in H as [H _]. inversion H; subst hits2 is_bounce time_on_site.
    unfold seconds_between.
    apply GaFacts.maybe_conversion_Ok in Hconv as [Hconv | (seconds & Hs & Hconv)];
      inversion Hconv; subst hits last2.
    + replace (start + elapsed steps - start) with (elapsed steps) by lia.
      apply shape_engaged; auto. lia.
    + replace (start + elapsed steps + seconds - start)
        with (elapsed steps + seconds) by lia.
      simpl length. rewrite length_page_views.
      replace (Z.of_nat (S (length steps)) + 1) with (Z.of_nat (length steps) + 2) by lia.
      change (page_hit 1 start page_path page_title :: page_views start 2 steps ++ ?x)
        with (page_hit 1 start page_path page_title :: (page_views start 2 steps ++ x)).
      apply shape_converted; auto. lia.
Qed.

Lemma pick_traffic_Ok t source medium t' :
  pick_traffic t = Ok (source, medium) t' -> (source, medium) ∈ traffic_pairs.
Proof.
  unfold pick_traffic, traffic_pairs. intros H.
  apply bind_Ok in H as (roll & t1 & _ & H).
  destruct (roll <? 0.6)%float.
  { apply mret_Ok in H as [H _]. inversion H. set_solver. }
  destruct (roll <? 0.8)%float.
  { apply mret_Ok in H as [H _]. inversion H. set_solver. }
  destruct (roll <? 0.9)%float.
  - apply bind_Ok in H as (src & t2 & Hsrc & H).
    apply choice_Ok in Hsrc as (i & _ & Hi).
    apply mret_Ok in H as [H _]. inversion H; subst.
    destruct i as [|[|i]]; simpl in Hi; inversion Hi; set_solver.
  - apply mret_Ok in H as [H _]. inversion H. set_solver.
Qed.

Lemma choice_elem_of {A} (seq : list A) t a t' :
  Random.choice seq t = Ok a t' -> a ∈ seq.
Proof.
  intros H. apply choice_Ok in H as (i & _ & Hi).
  apply list_elem_of_lookup. eauto.
Qed.

Lemma elem_of_range n x : x ∈ range n -> 0 <= x < n.
Proof.
  unfold range. intros H. apply list_elem_of_fmap in H as (k & -> & Hk).
  apply elem_of_seq in Hk. lia.
Qed.

(** A session of day [day] has the shape of a GA row. *)
Lemma ga_session_shape cfg day t r t' :
  0 <= day < NUM_DAYS cfg ->
  ga_session cfg (START_DATE + day * 86400) t = Ok r t' ->
  ga_row_shape cfg r.
Proof.
  unfold ga_session. intros Hday H.
  apply bind_Ok in H as (seconds & t1 & Hs & H).
  apply randint_Ok in Hs as [_ Hs].
  apply bind_Ok in H as (start & t2 & Hstart & H).
  apply lift_Ok in Hstart as [Hstart _]. apply GaFacts.add_seconds_Ok in Hstart as ->.
  apply bind_Ok in H as (user_id & t3 & _ & H).
  apply bind_Ok in H as (session_id & t4 & _ & H).
  apply bind_Ok in H as ([source medium] & t5 & Htraffic & H).
  apply pick_traffic_Ok in Htraffic.
  apply bind_Ok in H as ([[hits is_bounce] time_on_site] & t6 & Hj & H).
  apply journey_has_shape in Hj.
  apply bind_Ok in H as (device_category & t7 & Hdev & H).
  apply choice_elem_of in Hdev.
  apply bind_Ok in H as (browser & t8 & Hbrowser & H).
  apply choice_elem_of in Hbrowser.
  apply bind_Ok in H as (operating_system & t9 & Hos & H).
  apply choice_elem_of in Hos.
  apply bind_Ok in H as (city & t10 & Hcity & H).
  apply choice_elem_of in Hcity.
  apply mret_Ok in H as [<- _].
  exists day, seconds, is_bounce, time_on_site. simpl.
  repeat (split; [first [assumption | reflexivity | lia]|]). exact Hcity.
Qed.

(** Every row of the GA table has the shape of a GA row. *)
Lemma ga_rows_shape cfg t tbl t' :
  ga_sessions_data cfg t = Ok tbl t' -> Forall (ga_row_shape cfg) tbl.
Proof.
  unfold ga_sessions_data.
  apply for_each_preserves; [constructor|].
  intros day s1 t1 s2 t2 Hday Hs1 H.
  apply elem_of_range in Hday.
  apply bind_Ok in H as (current_date & t3 & Hdate & H).
  apply lift_Ok in Hdate as [Hdate _]. apply SizeFacts.day_start_Ok in Hdate as ->.
  apply bind_Ok in H as (num_sessions_today & t4 & _ & H).
  revert H. apply for_each_preserves; [exact Hs1|].
  intros i s3 t5 s4 t6 _ Hs3 H.
  apply bind_Ok in H as (r & t7 & Hrow & H).
  apply mret_Ok in H as [<- _].
  apply Forall_app. split; [exact Hs3|].
  apply Forall_singleton. eapply ga_session_shape; eassumption.
Qed.

(** ** Facts about the additional page views *)

Lemma page_views_all_pages last n steps :
  Forall (fun h => Ga.type h = Ga.PAGE) (page_views last n steps).
Proof.
  revert last n. induction steps as [|[[s p] ti] steps IH]; intros; simpl;
    constructor; auto.
Qed.

Lemma elapsed_bounds cfg steps :
  Forall (step_ok cfg) steps ->
  30 * Z.of_nat (length steps) <= elapsed steps <= 120 * Z.of_nat (length steps).
Proof.
  induction 1 as [|[[s p] ti] steps [Hs _] _ IH]; simpl in *; lia.
Qed.

Lemma last_page_views start n steps h :
  last (page_views start n steps) = Some h ->
  Ga.hit_time h = start + elapsed steps.
Proof.
  destruct steps as [|st steps _] using rev_ind; [discriminate|].
  destruct st as [[s p] ti].
  rewrite page_views_snoc, last_snoc, elapsed_snoc.
  intros H. inversion H. simpl. lia.
Qed.

Lemma spaced_page_views cfg first n steps :
  Forall (step_ok cfg) steps ->
  spaced (first :: page_views (Ga.hit_time first) n steps).
Proof.
  intros Hok. revert first n.
  induction Hok as [|[[s p] ti] steps [Hs _] _ IH]; intros first n i h1 h2 H1 H2.
  - destruct i; discriminate.
  - simpl in H2. destruct i as [|i].
    + simpl in H1, H2. inversion H1; inversion H2; subst. simpl in *. lia.
    + simpl in H1.
      apply (IH (page_hit n (Ga.hit_time first + s) p ti) (n + 1) i h1 h2);
        assumption.
Qed.

Lemma spaced_snoc hits h0 h :
  spaced hits -> last hits = Some h0 ->
  match Ga.type h with
  | Ga.PAGE => 30 <= Ga.hit_time h - Ga.hit_time h0 <= 120
  | Ga.EVENT => 10 <= Ga.hit_time h - Ga.hit_time h0 <= 30
  end ->
  spaced (hits ++ [h]).
Proof.
  intros Hsp Hlast Hgap i h1 h2 H1 H2.
  destruct (decide (S i < length hits)%nat) as [Hlt|Hge].
  - rewrite lookup_app_l in H1, H2 by lia. eapply Hsp; eassumption.
  - assert (S i = length hits) as Hi.
    { apply lookup_lt_Some in H2. rewrite length_app in H2. simpl in H2. lia. }
    rewrite lookup_app_l in H1 by lia.
    rewrite lookup_app_r in H2 by lia.
    replace (S i - length hits)%nat with 0%nat in H2 by lia.
    simpl in H2. inversion H2; subst h2.
    rewrite last_lookup in Hlast.
    replace (pred (length hits)) with i in Hlast by lia.
    rewrite H1 in Hlast. inversion Hlast; subst h0. exact Hgap.
Qed.


Lemma page_views_payloads cfg start n steps :
  Forall (step_ok cfg) steps ->
  Forall (hit_payload_ok cfg) (page_views start n steps).
Proof.
  intros Hok. revert start n.
  induction Hok as [|[[s p] ti] steps [_ Hp] _ IH]; intros; simpl; constructor; auto.
  split; [reflexivity|]. exists p, ti. auto.
Qed.

Lemma count_pages_app hits1 hits2 :
  count_pages (hits1 ++ hits2) = count_pages hits1 + count_pages hits2.
Proof. induction hits1 as [|h hits1 IH]; simpl; lia. Qed.

Lemma count_pages_page_views start n steps :
  count_pages (page_views start n steps) = Z.of_nat (length steps).
Proof.
  revert start n. induction steps as [|[[s p] ti] steps IH]; intros; [reflexivity|].
  cbn [page_views count_pages length]. rewrite IH. simpl. lia.
Qed.

(** ** The rows of the GA table *)

(** X1: the first hit of every session is the landing page view: a PAGE hit
    numbered 1, at the session start time, on a page of the catalog with
    its title; at most five hits follow it. *)
Theorem ga_first_hit_is_landing_page cfg t tbl t' :
  ga_sessions_data cfg t = Ok tbl t' ->
  Forall (fun r => exists page_path page_title rest,
              Ga.hits r = page_hit 1 (Ga.session_start_time r) page_path page_title
                            :: rest /\
              page_ok cfg page_path page_title /\
              (length rest <= 5)%nat) tbl.
Proof.
  intros Hrun. apply ga_rows_shape in Hrun.
  eapply Forall_impl; [exact Hrun|]. simpl.
  intros r (day & seconds & is_bounce & tos & _ & _ & _ & _ & Hj & _).
  inversion Hj as [p ti tos' Hp Htos Hh | p ti steps Hp Hlen Hok Hh
                   | p ti steps s Hp Hlen Hok Hs Hh];
    eexists p, ti, _; (split; [reflexivity|]); (split; [exact Hp|]).
  - simpl. lia.
  - rewrite length_page_views. lia.
  - rewrite length_app, length_page_views. simpl. lia.
Qed.

Lemma ga_first_hit_is_landing_page_witness :
  Forall (fun r => exists page_path page_title rest,
              Ga.hits r = page_hit 1 (Ga.session_start_time r) page_path page_title
                            :: rest /\
              page_ok Samples.one_day page_path page_title /\
              (length rest <= 5)%nat) Samples.ga_table.
Proof.
  refine (ga_first_hit_is_landing_page Samples.one_day Samples.ga_day_tape
            Samples.ga_table [] _).
  vm_compute. reflexivity.
Defined.

(** X2: every hit carries exactly the payload of its type: a PAGE hit a page
    of the catalog with its title and the hospital hostname, and no
    event; an EVENT hit the fixed conversion event, and no page. *)
Theorem ga_hit_payloads cfg t tbl t' :
  ga_sessions_data cfg t = Ok tbl t' ->
  Forall (fun r => Forall (hit_payload_ok cfg) (Ga.hits r)) tbl.
Proof.
  intros Hrun. apply ga_rows_shape in Hrun.
  eapply Forall_impl; [exact Hrun|]. simpl.
  intros r (day & seconds & is_bounce & tos & _ & _ & _ & _ & Hj & _).
  assert (forall n time p ti, page_ok cfg p ti -> hit_payload_ok cfg (page_hit n time p ti))
    as Hpage by (intros; split; [reflexivity|]; eauto).
  inversion Hj as [p ti tos' Hp Htos Hh | p ti steps Hp Hlen Hok Hh
                   | p ti steps s Hp Hlen Hok Hs Hh].
  - apply Forall_singleton. auto.
  - constructor; [auto|]. apply page_views_payloads; exact Hok.
  - constructor; [auto|]. apply Forall_app. split.
    + apply page_views_payloads; exact Hok.
    + apply Forall_singleton. split; reflexivity.
Qed.

Lemma ga_hit_payloads_witness :
  Forall (fun r => Forall (hit_payload_ok Samples.one_day) (Ga.hits r)) Samples.ga_table.
Proof.
  refine (ga_hit_payloads Samples.one_day Samples.ga_day_tape Samples.ga_table [] _).
  vm_compute. reflexivity.
Defined.

(** X3: an EVENT hit is always the last hit of its session, comes after at
    least two page views, and only in a session that is not a bounce. *)
Theorem ga_event_is_last cfg t tbl t' :
  ga_sessions_data cfg t = Ok tbl t' ->
  Forall (fun r => forall i h,
              Ga.hits r !! i = Some h -> Ga.type h = Ga.EVENT ->
              S i = length (Ga.hits r) /\ (2 <= i)%nat /\
              Ga.bounces (Ga.totals r) = 0) tbl.
Proof.
  intros Hrun. apply ga_rows_shape in Hrun.
  eapply Forall_impl; [exact Hrun|]. simpl.
  intros r (day & seconds & is_bounce & tos & _ & _ & _ & _ & Hj & _ & Hb & _).
  intros i h Hi Hev. rewrite Hb. clear Hb.
  inversion Hj as [p ti tos' Hp Htos Hh | p ti steps Hp Hlen Hok Hh
                   | p ti steps s Hp Hlen Hok Hs Hh];
    subst; rewrite <- Hh in Hi.
  - destruct i; [|discriminate]. inversion Hi; subst. discriminate.
  - exfalso.
    assert (Forall (fun h => Ga.type h = Ga.PAGE)
              (page_hit 1 (Ga.session_start_time r) p ti
                 :: page_views (Ga.session_start_time r) 2 steps)) as Hall
      by (constructor; [reflexivity | apply page_views_all_pages]).
    rewrite Forall_lookup in Hall. specialize (Hall _ _ Hi). congruence.
  - destruct i as [|i]; [inversion Hi; subst; discriminate|].
    simpl in Hi.
    pose proof (page_views_all_pages (Ga.session_start_time r) 2 steps) as Hall.
    rewrite Forall_lookup in Hall.
    destruct (decide (i < length (page_views (Ga.session_start_time r) 2 steps))%nat)
      as [Hlt|Hge].
    + rewrite lookup_app_l in Hi by exact Hlt.
      specialize (Hall _ _ Hi). congruence.
    + apply lookup_lt_Some in Hi as Hbound.
      rewrite length_app in Hbound. simpl in Hbound.
      simpl. rewrite length_app. simpl.
      rewrite length_page_views in *. repeat split; lia.
Qed.

Lemma ga_event_is_last_witness :
  Forall (fun r => forall i h,
              Ga.hits r !! i = Some h -> Ga.type h = Ga.EVENT ->
              S i = length (Ga.hits r) /\ (2 <= i)%nat /\
              Ga.bounces (Ga.totals r) = 0) Samples.ga_table.
Proof.
  refine (ga_event_is_last Samples.one_day Samples.ga_day_tape Samples.ga_table [] _).
  vm_compute. reflexivity.
Defined.

(** X4: pageviews lies between 1 and 5 and is len(hits), or len(hits) - 1 when
    the session ends with the conversion event; a session has at most six
    hits. *)
Theorem ga_pageviews_bounds cfg t tbl t' :
  ga_sessions_data cfg t = Ok tbl t' ->
  Forall (fun r =>
            1 <= Ga.pageviews (Ga.totals r) <= 5 /\
            Z.of_nat (length (Ga.hits r)) - 1 <= Ga.pageviews (Ga.totals r)
              <= Z.of_nat (length (Ga.hits r)) /\
            (length (Ga.hits r) <= 6)%nat) tbl.
Proof.
  intros Hrun. apply ga_rows_shape in Hrun.
  eapply Forall_impl; [exact Hrun|]. simpl.
  intros r (day & seconds & is_bounce & tos & _ & _ & _ & _ & Hj & _ & _ & Hpv & _).
  rewrite Hpv, GaFacts.filter_pages_count. clear Hpv.
  inversion Hj as [p ti tos' Hp Htos Hh | p ti steps Hp Hlen Hok Hh
                   | p ti steps s Hp Hlen Hok Hs Hh].
  - simpl. lia.
  - cbn [count_pages length]. rewrite count_pages_page_views, length_page_views.
    simpl. lia.
  - cbn [count_pages length].
    rewrite count_pages_app, count_pages_page_views, length_app, length_page_views.
    simpl. lia.
Qed.

Lemma ga_pageviews_bounds_witness :
  Forall (fun r =>
            1 <= Ga.pageviews (Ga.totals r) <= 5 /\
            Z.of_nat (length (Ga.hits r)) - 1 <= Ga.pageviews (Ga.totals r)
              <= Z.of_nat (length (Ga.hits r)) /\
            (length (Ga.hits r) <= 6)%nat) Samples.ga_table.
Proof.
  refine (ga_pageviews_bounds Samples.one_day Samples.ga_day_tape Samples.ga_table [] _).
  vm_compute. reflexivity.
Defined.

(** X5: the time on site of a bounce is between 5 and 45 seconds; that of any
    other session is the time from the session start to its last hit,
    between 30 and 510 seconds. *)
Theorem ga_time_on_site cfg t tbl t' :
  ga_sessions_data cfg t = Ok tbl t' ->
  Forall (fun r =>
            (Ga.bounces (Ga.totals r) = 1 ->
             5 <= Ga.time_on_site_seconds (Ga.totals r) <= 45) /\
            (Ga.bounces (Ga.totals r) = 0 ->
             30 <= Ga.time_on_site_seconds (Ga.totals r) <= 510 /\
             exists h, last (Ga.hits r) = Some h /\
               Ga.time_on_site_seconds (Ga.totals r)
                 = Ga.hit_time h - Ga.session_start_time r)) tbl.
Proof.
  intros Hrun. apply ga_rows_shape in Hrun.
  eapply Forall_impl; [exact Hrun|]. simpl.
  intros r (day & seconds & is_bounce & tos & _ & _ & _ & _ & Hj & -> & -> & _).
  inversion Hj as [p ti tos' Hp Htos Hh | p ti steps Hp Hlen Hok Hh
                   | p ti steps s Hp Hlen Hok Hs Hh];
    (split; [try discriminate | try discriminate]).
  - auto.
  - intros _. pose proof (elapsed_bounds cfg steps Hok) as Hb. split; [lia|].
    destruct (last (page_views (Ga.session_start_time r) 2 steps)) as [h|] eqn:El.
    + exists h. change (page_hit 1 ?a p ti :: ?l) with ([page_hit 1 a p ti] ++ l).
      rewrite last_app, El. split; [reflexivity|].
      apply last_page_views in El. lia.
    + apply last_None in El. apply (f_equal length) in El.
      rewrite length_page_views in El. simpl in El. lia.
  - intros _. pose proof (elapsed_bounds cfg steps Hok) as Hb. split; [lia|].
    eexists. rewrite app_comm_cons, last_snoc. split; [reflexivity|].
    simpl. lia.
Qed.

Lemma ga_time_on_site_witness :
  Forall (fun r =>
            (Ga.bounces (Ga.totals r) = 1 ->
             5 <= Ga.time_on_site_seconds (Ga.totals r) <= 45) /\
            (Ga.bounces (Ga.totals r) = 0 ->
             30 <= Ga.time_on_site_seconds (Ga.totals r) <= 510 /\
             exists h, last (Ga.hits r) = Some h /\
               Ga.time_on_site_seconds (Ga.totals r)
                 = Ga.hit_time h - Ga.session_start_time r)) Samples.ga_table.
Proof.
  refine (ga_time_on_site Samples.one_day Samples.ga_day_tape Samples.ga_table [] _).
  vm_compute. reflexivity.
Defined.

(** X6: consecutive hits are spaced as drawn: a page view comes 30 to 120
    seconds after the hit before it, the conversion event 10 to 30
    seconds; so hit times strictly increase. *)
Theorem ga_hits_spaced cfg t tbl t' :
  ga_sessions_data cfg t = Ok tbl t' ->
  Forall (fun r => spaced (Ga.hits r)) tbl.
Proof.
  intros Hrun. apply ga_rows_shape in Hrun.
  eapply Forall_impl; [exact Hrun|]. simpl.
  intros r (day & seconds & is_bounce & tos & _ & _ & _ & _ & Hj & _).
  set (start := Ga.session_start_time r) in *.
  inversion Hj as [p ti tos' Hp Htos Hh | p ti steps Hp Hlen Hok Hh
                   | p ti steps s Hp Hlen Hok Hs Hh].
  - intros i ha hb Ha Hb. destruct i; discriminate.
  - apply (spaced_page_views cfg (page_hit 1 start p ti) 2 steps Hok).
  - rewrite app_comm_cons.
    pose proof (spaced_page_views cfg (page_hit 1 start p ti) 2 steps Hok) as Hsp.
    simpl Ga.hit_time in Hsp.
    destruct (last (page_hit 1 start p ti :: page_views start 2 steps))
      as [h0|] eqn:El; [|apply last_None in El; discriminate].
    eapply spaced_snoc; [exact Hsp | exact El |]. simpl.
    change (page_hit 1 start p ti :: ?l) with ([page_hit 1 start p ti] ++ l) in El.
    rewrite last_app in El.
    destruct (last (page_views start 2 steps)) as [h|] eqn:El2.
    + inversion El; subst h0. apply last_page_views in El2. lia.
    + apply last_None in El2. apply (f_equal length) in El2.
      rewrite length_page_views in El2. simpl in El2. lia.
Qed.

Lemma ga_hits_spaced_witness :
  Forall (fun r => spaced (Ga.hits r)) Samples.ga_table.
Proof.
  refine (ga_hits_spaced Samples.one_day Samples.ga_day_tape Samples.ga_table [] _).
  vm_compute. reflexivity.
Defined.

Lemma date_of_within_day day seconds :
  0 <= seconds <= 86399 ->
  date_of (START_DATE + day * 86400 + seconds) = date_of START_DATE + day.
Proof.
  intros Hs. unfold date_of.
  change START_DATE with (739251 * 86400).
  replace (739251 * 86400 + day * 86400 + seconds)
    with (seconds + (739251 + day) * 86400) by lia.
  rewrite Z.div_add by lia. rewrite Z.div_small by lia.
  rewrite Z.div_mul by lia. lia.
Qed.

(** X7: every session starts within the day of its partition date, and the
    partition dates are the NUM_DAYS days from START_DATE on. *)
Theorem ga_partition_date cfg t tbl t' :
  ga_sessions_data cfg t = Ok tbl t' ->
  Forall (fun r =>
            Ga.partition_date r = date_of (Ga.session_start_time r) /\
            date_of START_DATE <= Ga.partition_date r
              < date_of START_DATE + NUM_DAYS cfg) tbl.
Proof.
  intros Hrun. apply ga_rows_shape in Hrun.
  eapply Forall_impl; [exact Hrun|]. simpl.
  intros r (day & seconds & is_bounce & tos & Hday & Hs & -> & -> & _).
  rewrite date_of_within_day by exact Hs.
  replace (START_DATE + day * 86400) with (START_DATE + day * 86400 + 0) by lia.
  rewrite date_of_within_day by lia. lia.
Qed.

Lemma ga_partition_date_witness :
  Forall (fun r =>
            Ga.partition_date r = date_of (Ga.session_start_time r) /\
            date_of START_DATE <= Ga.partition_date r
              < date_of START_DATE + NUM_DAYS Samples.one_day) Samples.ga_table.
Proof.
  refine (ga_partition_date Samples.one_day Samples.ga_day_tape Samples.ga_table [] _).
  vm_compute. reflexivity.
Defined.

(** X8: the categorical columns take their values in the lists they are
    chosen from: the (source, medium) pair is one of the five of the
    traffic source logic, the campaign is "(not set)", and device
    category, browser, operating system and city are entries of their
    lists; country and region are the primary ones. *)
Theorem ga_categorical_columns cfg t tbl t' :
  ga_sessions_data cfg t = Ok tbl t' ->
  Forall (fun r =>
            (Ga.source (Ga.traffic_source r), Ga.medium (Ga.traffic_source r))
              ∈ traffic_pairs /\
            Ga.campaign (Ga.traffic_source r) = "(not set)" /\
            Ga.device_category r ∈ ["mobile"; "desktop"; "tablet"] /\
            Ga.browser r ∈ ["Chrome"; "Safari"; "Firefox"; "Edge"] /\
            Ga.operating_system r ∈ ["Android"; "iOS"; "Windows"; "MacOS"] /\
            Ga.geo r ∈ [ {| Ga.geo_country := "India"; Ga.region := "Tamil Nadu";
                            Ga.city := "Chennai" |};
                         {| Ga.geo_country := "India"; Ga.region := "Tamil Nadu";
                            Ga.city := "Coimbatore" |};
                         {| Ga.geo_country := "India"; Ga.region := "Tamil Nadu";
                            Ga.city := "Madurai" |} ]) tbl.
Proof.
  intros Hrun. apply ga_rows_shape in Hrun.
  eapply Forall_impl; [exact Hrun|]. simpl.
  intros r (day & seconds & is_bounce & tos & _ & _ & _ & _ & _ & _ & _ & _
            & Htr & Hc & Hdev & Hbr & Hos & Hcountry & Hregion & Hcity).
  repeat (split; [assumption|]).
  destruct (Ga.geo r) as [country region city]. simpl in *. subst country region.
  unfold PRIMARY_CITY in Hcity.
  apply elem_of_cons in Hcity as [->|Hcity]; [left|]. right.
  apply elem_of_cons in Hcity as [->|Hcity]; [left|]. right.
  apply list_elem_of_singleton in Hcity as ->. left.
Qed.

Lemma ga_categorical_columns_witness :
  Forall (fun r =>
            (Ga.source (Ga.traffic_source r), Ga.medium (Ga.traffic_source r))
              ∈ traffic_pairs /\
            Ga.campaign (Ga.traffic_source r) = "(not set)" /\
            Ga.device_category r ∈ ["mobile"; "desktop"; "tablet"] /\
            Ga.browser r ∈ ["Chrome"; "Safari"; "Firefox"; "Edge"] /\
            Ga.operating_system r ∈ ["Android"; "iOS"; "Windows"; "MacOS"] /\
            Ga.geo r ∈ [ {| Ga.geo_country := "India"; Ga.region := "Tamil Nadu";
                            Ga.city := "Chennai" |};
                         {| Ga.geo_country := "India"; Ga.region := "Tamil Nadu";
                            Ga.city := "Coimbatore" |};
                         {| Ga.geo_country := "India"; Ga.region := "Tamil Nadu";
                            Ga.city := "Madurai" |} ]) Samples.ga_table.
Proof.
  refine (ga_categorical_columns Samples.one_day Samples.ga_day_tape
            Samples.ga_table [] _).
  vm_compute. reflexivity.
Defined.

End GaShape.

(** * The rows of the GSC and YouTube tables, and the runs that cannot end *)

Module DbShape.
Import PyFloat PyTime Db Props Shape.

Lemma gsc_row_fields current_date query page device t r t' :
  gsc_row current_date query page device t = Ok r t' ->
  Gsc.partition_date r = date_of current_date /\
  Gsc.query r = query /\
  Gsc.page_url r = "https://" +:+ HOSPITAL_HOSTNAME +:+ page /\
  Gsc.country r = PRIMARY_COUNTRY_CODE /\
  Gsc.device r = device /\
  (if contains "best" query
   then 500 <= Gsc.impressions r <= 10000
   else 50 <= Gsc.impressions r <= 8000).
Proof.
  unfold gsc_row. intros H.
  apply bind_Ok in H as (imp & t1 & Himp & H).
  apply bind_Ok in H as (ctr & t2 & _ & H).
  apply bind_Ok in H as (product & t3 & _ & H).
  apply bind_Ok in H as (truncated & t4 & _ & H).
  apply bind_Ok in H as (avg & t5 & _ & H).
  apply bind_Ok in H as (weighted & t6 & _ & H).
  apply bind_Ok in H as (sum & t7 & _ & H).
  apply mret_Ok in H as [<- _]. simpl.
  repeat (split; [reflexivity|]).
  destruct (contains "best" query); simpl in Himp;
    apply randint_Ok in Himp as [_ Himp]; exact Himp.
Qed.

(** Every row of the GSC table comes from the loop body, run on a day of
    the range, an entry of the query catalog and one of the two devices. *)
Lemma gsc_data_rows cfg t tbl t' :
  gsc_data cfg t = Ok tbl t' ->
  Forall (fun r => exists day query page device t1 t2,
              0 <= day < NUM_DAYS cfg /\
              (query, page) ∈ GSC_QUERIES cfg /\
              device ∈ ["MOBILE"; "DESKTOP"] /\
              gsc_row (START_DATE + day * 86400) query page device t1 = Ok r t2) tbl.
Proof.
  unfold gsc_data.
  apply for_each_preserves; [constructor|].
  intros day s1 t1 s2 t2 Hday Hs1 H.
  apply GaShape.elem_of_range in Hday.
  apply bind_Ok in H as (current_date & t3 & Hdate & H).
  apply lift_Ok in Hdate as [Hdate _]. apply SizeFacts.day_start_Ok in Hdate as ->.
  revert H. apply for_each_preserves; [exact Hs1|].
  intros [query page] s3 t4 s4 t5 Hq Hs3.
  apply for_each_preserves; [exact Hs3|].
  intros device s5 t6 s6 t7 Hdev Hs5 H.
  apply bind_Ok in H as (r & t8 & Hrow & H).
  apply mret_Ok in H as [<- _].
  apply Forall_app. split; [exact Hs5|].
  apply Forall_singleton. eauto 12.
Qed.

(** X9: impressions lie between 500 and 10000 for a query containing "best"
    and between 50 and 8000 for any other query, so always between 50 and
    10000. *)
Theorem gsc_impressions_range cfg t tbl t' :
  gsc_data cfg t = Ok tbl t' ->
  Forall (fun r =>
            (if contains "best" (Gsc.query r)
             then 500 <= Gsc.impressions r <= 10000
             else 50 <= Gsc.impressions r <= 8000) /\
            50 <= Gsc.impressions r <= 10000) tbl.
Proof.
  intros Hrun. apply gsc_data_rows in Hrun.
  eapply Forall_impl; [exact Hrun|]. simpl.
  intros r (day & query & page & device & t1 & t2 & _ & _ & _ & Hrow).
  apply gsc_row_fields in Hrow as (_ & -> & _ & _ & _ & Himp).
  split; [exact Himp|]. destruct (contains "best" query); lia.
Qed.

Lemma gsc_impressions_range_witness :
  Forall (fun r =>
            (if contains "best" (Gsc.query r)
             then 500 <= Gsc.impressions r <= 10000
             else 50 <= Gsc.impressions r <= 8000) /\
            50 <= Gsc.impressions r <= 10000) Samples.gsc_table.
Proof.
  refine (gsc_impressions_range Samples.one_day (Samples.gsc_day_tape Samples.one_day)
            Samples.gsc_table [] _).
  vm_compute. reflexivity.
Defined.

(** X10: every GSC row is about a query of the catalog: its page_url is
    "https://", the hospital hostname and the landing page the catalog
    gives for the query; its country is "IN" and its device MOBILE or
    DESKTOP. *)
Theorem gsc_landing_pages cfg t tbl t' :
  gsc_data cfg t = Ok tbl t' ->
  Forall (fun r => exists page,
              (Gsc.query r, page) ∈ GSC_QUERIES cfg /\
              Gsc.page_url r = "https://www.apollohospitals.com" +:+ page /\
              Gsc.country r = "IN" /\
              Gsc.device r ∈ ["MOBILE"; "DESKTOP"]) tbl.
Proof.
  intros Hrun. apply gsc_data_rows in Hrun.
  eapply Forall_impl; [exact Hrun|]. simpl.
  intros r (day & query & page & device & t1 & t2 & _ & Hq & Hdev & Hrow).
  apply gsc_row_fields in Hrow as (_ & -> & -> & -> & -> & _).
  exists page. repeat split; auto.
Qed.

Lemma gsc_landing_pages_witness :
  Forall (fun r => exists page,
              (Gsc.query r, page) ∈ GSC_QUERIES Samples.one_day /\
              Gsc.page_url r = "https://www.apollohospitals.com" +:+ page /\
              Gsc.country r = "IN" /\
              Gsc.device r ∈ ["MOBILE"; "DESKTOP"]) Samples.gsc_table.
Proof.
  refine (gsc_landing_pages Samples.one_day (Samples.gsc_day_tape Samples.one_day)
            Samples.gsc_table [] _).
  vm_compute. reflexivity.
Defined.

(** ** YouTube rows *)

Lemma yt_row_fields current_date video_id video_meta t r t' :
  yt_row current_date video_id video_meta t = Ok r t' ->
  yt_key r = (date_of current_date, video_id, title video_meta) /\
  Yt.country_code r = PRIMARY_COUNTRY_CODE /\
  Yt.age_group r ∈ ["25-34"; "35-44"; "45-54"; "55-64"] /\
  Yt.gender r ∈ ["MALE"; "FEMALE"] /\
  Yt.device_type r ∈ ["MOBILE"; "DESKTOP"; "TABLET"] /\
  Yt.traffic_source_type r ∈ ["YT_SEARCH"; "YT_RELATED"; "SUBSCRIBER"; "EXT_URL"] /\
  50 <= Yt.views r <= 1500 /\
  Yt.watch_time_msec r = Yt.views r * avg_view_sec video_meta * 1000 /\
  Yt.potential_watch_time_msec r = Yt.views r * duration_sec video_meta * 1000.
Proof.
  unfold yt_row. intros H.
  apply bind_Ok in H as (views & t1 & Hviews & H).
  apply randint_Ok in Hviews as [_ Hviews].
  apply bind_Ok in H as (age & t2 & Hage & H).
  apply GaShape.choice_elem_of in Hage.
  apply bind_Ok in H as (gender & t3 & Hgender & H).
  apply GaShape.choice_elem_of in Hgender.
  apply bind_Ok in H as (dev & t4 & Hdev & H).
  apply GaShape.choice_elem_of in Hdev.
  apply bind_Ok in H as (src & t5 & Hsrc & H).
  apply GaShape.choice_elem_of in Hsrc.
  apply bind_Ok in H as (likes & t6 & _ & H).
  apply bind_Ok in H as (shares & t7 & _ & H).
  apply bind_Ok in H as (comments & t8 & _ & H).
  apply bind_Ok in H as (subs & t9 & _ & H).
  apply mret_Ok in H as [<- _]. simpl. unfold yt_key. simpl.
  repeat (split; [first [assumption | reflexivity]|]). reflexivity.
Qed.

(** X11: the YouTube table has one row per day and catalog video, in loop
    order, each with the video's id and title. *)
Theorem yt_one_row_per_day_and_video cfg t tbl t' :
  yt_data cfg t = Ok tbl t' -> yt_key <$> tbl = yt_keys cfg.
Proof.
  unfold yt_data, yt_keys. intros H.
  eapply SizeFacts.for_each_appends in H as (rows & -> & Hk); [exact Hk|].
  intros day s1 t1 s2 t2 Hday.
  apply bind_Ok in Hday as (current_date & t3 & Hdate & Hday).
  apply lift_Ok in Hdate as [Hdate ->]. apply SizeFacts.day_start_Ok in Hdate as ->.
  eapply SizeFacts.for_each_appends in Hday as (rows & -> & Hk);
    [exists rows; split; [reflexivity | exact Hk]|].
  intros [video_id video_meta] s3 t4 s4 t5 Hrow.
  apply bind_Ok in Hrow as (r & t6 & Hr & Hrow).
  apply mret_Ok in Hrow as [<- _].
  exists [r]. split; [reflexivity|].
  apply yt_row_fields in Hr as (Hkey & _). simpl. rewrite Hkey. reflexivity.
Qed.

Lemma yt_one_row_per_day_and_video_witness :
  yt_key <$> Samples.yt_table = yt_keys Samples.one_day.
Proof.
  refine (yt_one_row_per_day_and_video Samples.one_day
            (Samples.yt_day_tape Samples.one_day) Samples.yt_table [] _).
  vm_compute. reflexivity.
Defined.

(** X12: every YouTube row belongs to a video of the catalog and carries its
    title; views lie between 50 and 1500, watch_time_msec is views x
    avg_view_sec x 1000 and potential_watch_time_msec is views x
    duration_sec x 1000 for that video; the country code is "IN" and age
    group, gender, device type and traffic source type are entries of
    their lists. *)
Theorem yt_row_columns cfg t tbl t' :
  yt_data cfg t = Ok tbl t' ->
  Forall (fun r => exists video_meta,
              (Yt.external_video_id r, video_meta) ∈ YT_VIDEOS cfg /\
              Yt.video_title r = title video_meta /\
              Yt.country_code r = "IN" /\
              Yt.age_group r ∈ ["25-34"; "35-44"; "45-54"; "55-64"] /\
              Yt.gender r ∈ ["MALE"; "FEMALE"] /\
              Yt.device_type r ∈ ["MOBILE"; "DESKTOP"; "TABLET"] /\
              Yt.traffic_source_type r
                ∈ ["YT_SEARCH"; "YT_RELATED"; "SUBSCRIBER"; "EXT_URL"] /\
              50 <= Yt.views r <= 1500 /\
              Yt.watch_time_msec r = Yt.views r * avg_view_sec video_meta * 1000 /\
              Yt.potential_watch_time_msec r
                = Yt.views r * duration_sec video_meta * 1000) tbl.
Proof.
  intros Hrun. apply YtFacts.yt_data_rows in Hrun.
  eapply Forall_impl; [exact Hrun|]. simpl.
  intros r (current_date & video_id & video_meta & t1 & t2 & Hin & Hrow).
  apply yt_row_fields in Hrow as (Hkey & Hrest).
  unfold yt_key in Hkey. inversion Hkey as [[Hd Hid Ht]].
  exists video_meta. rewrite Hid. auto.
Qed.

Lemma yt_row_columns_witness :
  Forall (fun r => exists video_meta,
              (Yt.external_video_id r, video_meta) ∈ YT_VIDEOS Samples.one_day /\
              Yt.video_title r = title video_meta /\
              Yt.country_code r = "IN" /\
              Yt.age_group r ∈ ["25-34"; "35-44"; "45-54"; "55-64"] /\
              Yt.gender r ∈ ["MALE"; "FEMALE"] /\
              Yt.device_type r ∈ ["MOBILE"; "DESKTOP"; "TABLET"] /\
              Yt.traffic_source_type r
                ∈ ["YT_SEARCH"; "YT_RELATED"; "SUBSCRIBER"; "EXT_URL"] /\
              50 <= Yt.views r <= 1500 /\
              Yt.watch_time_msec r = Yt.views r * avg_view_sec video_meta * 1000 /\
              Yt.potential_watch_time_msec r
                = Yt.views r * duration_sec video_meta * 1000) Samples.yt_table.
Proof.
  refine (yt_row_columns Samples.one_day (Samples.yt_day_tape Samples.one_day)
            Samples.yt_table [] _).
  vm_compute. reflexivity.
Defined.

(** ** Runs that cannot end *)

Lemma for_each_bodies {B S} (body : B -> S -> Gen S) xs x :
  x ∈ xs ->
  forall s t s' t', for_each xs body s t = Ok s' t' ->
  exists s1 t1 s2 t2, body x s1 t1 = Ok s2 t2.
Proof.
  induction xs as [|y xs IH]; intros Hx s t s' t' Hrun.
  - by apply elem_of_nil in Hx.
  - simpl in Hrun. apply bind_Ok in Hrun as (s1 & t1 & Hbody & Hrest).
    apply elem_of_cons in Hx as [->|Hx]; [eauto|].
    eapply IH; eassumption.
Qed.

Lemma range_elem_of n x : 0 <= x < n -> x ∈ range n.
Proof.
  intros Hx. unfold range. apply list_elem_of_fmap.
  exists (Z.to_nat x). split; [lia|]. apply elem_of_seq. lia.
Qed.

Lemma day_start_last_day day current_date :
  day_start day = inr current_date -> day <= last_day.
Proof.
  unfold day_start, add, timedelta, last_day.
  destruct (Z.abs ((day * 86400 + 0) / 86400) <=? 999999999); [|discriminate].
  destruct ((0 <=? START_DATE + (day * 86400 + 0))
            && (START_DATE + (day * 86400 + 0) <=? max_second)) eqn:E; [|discriminate].
  intros _. apply andb_true_iff in E as [_ E]. apply Z.leb_le in E.
  change START_DATE with (739251 * 86400) in E.
  change max_second with (3652059 * 86400 - 1) in E. lia.
Qed.

(** X13: a run that completes covers at most 2912808 days: the day after
    9999-12-31 does not exist, and [START_DATE + timedelta(days=day)] raises
    for it in the first pass. *)
Theorem completed_run_ends_by_year_9999 cfg t tables t' :
  generate cfg t = Ok tables t' -> NUM_DAYS cfg <= last_day + 1.
Proof.
  unfold generate. intros H.
  apply bind_Ok in H as (gsc & t1 & Hgsc & _).
  destruct (Z_le_gt_dec (NUM_DAYS cfg) (last_day + 1)) as [Hle|Hgt]; [exact Hle|].
  exfalso. unfold gsc_data in Hgsc.
  eapply (for_each_bodies _ _ (last_day + 1)) in Hgsc
    as (s1 & t2 & s2 & t3 & Hbody);
    [|apply range_elem_of; unfold last_day in *; lia].
  apply bind_Ok in Hbody as (current_date & t4 & Hdate & _).
  apply lift_Ok in Hdate as [Hdate _].
  apply day_start_last_day in Hdate. lia.
Qed.

Lemma completed_run_ends_by_year_9999_witness :
  NUM_DAYS Samples.one_day <= last_day + 1.
Proof.
  refine (completed_run_ends_by_year_9999 Samples.one_day Samples.one_day_tape
            (Samples.gsc_table, Samples.yt_table, Samples.ga_table) [] _).
  vm_compute. reflexivity.
Defined.

(** X14: with at least one day to generate, the GA pass completes only on a
    page catalog that is not empty: [random.choice] raises on an empty
    list. *)
Theorem ga_pass_needs_pages cfg t tbl t' :
  ga_sessions_data cfg t = Ok tbl t' ->
  1 <= NUM_DAYS cfg ->
  PAGE_MAP cfg <> [].
Proof.
  intros Hrun Hdays Hempty.
  pose proof (SizeFacts.ga_sessions_data_length _ _ _ _ Hrun) as Hlen.
  pose proof (length_range (NUM_DAYS cfg)) as Hr.
  apply GaShape.ga_rows_shape in Hrun.
  destruct tbl as [|r tbl]; [simpl in Hlen; lia|].
  apply Forall_cons in Hrun as [(day & seconds & b & tos & _ & _ & _ & _ & Hj & _) _].
  assert (exists p ti, page_ok cfg p ti) as (p & ti & [Hin _])
    by (inversion Hj; eauto).
  rewrite Hempty in Hin. by apply elem_of_nil in Hin.
Qed.

Lemma ga_pass_needs_pages_witness : PAGE_MAP Samples.one_day <> [].
Proof.
  refine (ga_pass_needs_pages Samples.one_day Samples.ga_day_tape Samples.ga_table [] _ _).
  - vm_compute. reflexivity.
  - simpl. lia.
Defined.

End DbShape.

(** * The tools of the agent *)

Module ToolFacts.
Import Agent AgentTools App Props.

Section WithValues.
Context {V : Type}.
Variable str : exn -> string.
Hypothesis str_Exception : forall msg, str (Exception msg) = msg.

Lemma execute_bq_query_answer (c : @client V) query :
  execute_bq_query (Some c) query = inr (answer c query).
Proof. unfold execute_bq_query, answer. destruct (c query); reflexivity. Qed.

(** X15: without a BigQuery client [execute_all_queries] still returns: the
    exception of [execute_bq_query] becomes the error dict, and an
    argument that is not a list of three gets the input error. *)
Theorem execute_all_queries_without_client (queries : queries_arg) :
  execute_all_queries (V := V) str None queries
  = inr (ToolError
           (match queries with
            | QueryList [_; _; _] =>
                "Tool failed during query execution: BigQuery client is not available."
            | _ => "Tool error: Input must be a list of exactly three query strings."
            end)).
Proof.
  destruct queries as [[|q1 [|q2 [|q3 [|q4 qs]]]]|]; try reflexivity.
  unfold execute_all_queries, run_three. simpl.
  rewrite str_Exception. reflexivity.
Qed.

(** X16: with a client, three queries get three results, each the answer to
    its own query: a query that fails yields its own error dict and
    leaves the two other results as they are. *)
Theorem execute_all_queries_with_client (c : @client V)
    (ga_query gsc_query yt_query : string) :
  execute_all_queries str (Some c) (QueryList [ga_query; gsc_query; yt_query])
  = inr (Results (answer c ga_query) (answer c gsc_query) (answer c yt_query)).
Proof.
  unfold execute_all_queries, run_three.
  rewrite !execute_bq_query_answer. reflexivity.
Qed.

End WithValues.

Lemma execute_all_queries_without_client_witness :
  execute_all_queries (V := Z) str_message None (QueryList ["a"; "b"; "c"])
  = inr (ToolError
           "Tool failed during query execution: BigQuery client is not available.").
Proof.
  refine (execute_all_queries_without_client (V := Z) str_message _
            (QueryList ["a"; "b"; "c"])).
  intros msg. reflexivity.
Defined.

(** The tool answers with the server's JSON, or with the error-status dict
    for a failed request, an error status or a body that is not JSON; the
    only exception that escapes is one [response.json()] raises outside
    the [RequestException] family. *)
Lemma update_website_metadata_replies (post : transport)
    (title description page_h1 page_paragraph : string) :
  match update_website_metadata post title description page_h1 page_paragraph with
  | inr v =>
      (exists response,
          post service_url (payload title description page_h1 page_paragraph)
            = inr response /\
          raise_for_status response = None /\
          response_json response = JsonValue v) \/
      (exists message, v = api_call_failed message)
  | inl e =>
      exists response,
        post service_url (payload title description page_h1 page_paragraph)
          = inr response /\
        raise_for_status response = None /\
        response_json response = JsonOtherError e
  end.
Proof.
  unfold update_website_metadata.
  destruct (post _ _) as [message|response]; [right; eauto|].
  destruct (raise_for_status response) as [message|] eqn:Es; [right; eauto|].
  destruct (response_json response) as [v|message|e] eqn:Ej; eauto 6.
Qed.

(** ** The tool's request against the content API *)

Lemma payload_not_empty title description page_h1 page_paragraph fields :
  payload title description page_h1 page_paragraph = JObj fields -> fields <> ∅.
Proof.
  unfold payload. intros H. inversion H. intros He.
  apply (f_equal (fun m : gmap string json => m !! "title")) in He.
  rewrite lookup_empty in He. vm_compute in He. discriminate.
Qed.


(** X18: the tool's request is never rejected: whatever the four texts, empty
    ones included, the content API answers it with the success response,
    stores the four texts, and the page then reads them back. *)
Theorem tool_request_is_stored (store : gmap string json)
    (title description page_h1 page_paragraph : string) :
  has_fields store ->
  exists store',
    update_metadata (payload title description page_h1 page_paragraph) store
      = (inr {| body := jsonify [("status", "success");
                                 ("message", "Website content updated.")];
                status_code := 200 |}, store') /\
    homepage store'
      = inr [JStr title; JStr description; JStr page_h1; JStr page_paragraph].
Proof.
  intros Hstore. unfold payload.
  match goal with |- context [JObj ?m] => set (fields := m) end.
  assert (fields <> ∅) as Hne.
  { intros He. apply (f_equal (fun m : gmap string json => m !! "title")) in He.
    rewrite lookup_empty in He. vm_compute in He. discriminate. }
  assert (fields !! "title" = Some (JStr title)) as Ht by (vm_compute; reflexivity).
  assert (fields !! "description" = Some (JStr description)) as Hd
    by (vm_compute; reflexivity).
  assert (fields !! "page_h1" = Some (JStr page_h1)) as Hh by (vm_compute; reflexivity).
  assert (fields !! "page_paragraph" = Some (JStr page_paragraph)) as Hp
    by (vm_compute; reflexivity).
  eexists. split; [apply AppFacts.update_metadata_obj; assumption|].
  rewrite Ht, Hd, Hh, Hp. simpl.
  unfold homepage, read.
  rewrite lookup_insert_ne, lookup_insert_ne, lookup_insert_ne, lookup_insert_eq by done.
  rewrite lookup_insert_ne, lookup_insert_ne, lookup_insert_eq by done.
  rewrite lookup_insert_ne, lookup_insert_eq by done.
  rewrite lookup_insert_eq. reflexivity.
Qed.

Lemma tool_request_is_stored_witness :
  exists store',
    update_metadata (payload "" "" "" "") WEBSITE_METADATA
      = (inr {| body := jsonify [("status", "success");
                                 ("message", "Website content updated.")];
                status_code := 200 |}, store') /\
    homepage store' = inr [JStr ""; JStr ""; JStr ""; JStr ""].
Proof.
  refine (tool_request_is_stored WEBSITE_METADATA "" "" "" "" _).
  exact AppFacts.has_fields_initial.
Defined.

Lemma payload_accepted store title description page_h1 page_paragraph :
  has_fields store ->
  (update_metadata (payload title description page_h1 page_paragraph) store).1
  = inr {| body := jsonify [("status", "success");
                            ("message", "Website content updated.")];
           status_code := 200 |}.
Proof.
  intros Hstore. unfold payload.
  rewrite AppFacts.update_metadata_obj; [reflexivity | exact Hstore |].
  intros He. apply (f_equal (fun m : gmap string json => m !! "title")) in He.
  rewrite lookup_empty in He. vm_compute in He. discriminate.
Qed.

(** X17: over a transport that hands the request to the content API and
    brings its 200 response back, [update_website_metadata] returns the
    success dict of the API, whatever the four texts. *)
Theorem tool_call_succeeds (post : transport) (store : gmap string json)
    (title description page_h1 page_paragraph : string) :
  has_fields store ->
  delivers post store ->
  update_website_metadata post title description page_h1 page_paragraph
  = inr (jsonify [("status", "success"); ("message", "Website content updated.")]).
Proof.
  intros Hstore Hpost.
  pose proof (payload_accepted store title description page_h1 page_paragraph Hstore)
    as Hrun.
  destruct (update_metadata (payload title description page_h1 page_paragraph) store)
    as [r store'] eqn:E.
  simpl in Hrun. subst r.
  destruct (Hpost _ _ _ E eq_refl) as (response & Hp & Hs & Hj).
  unfold update_website_metadata. rewrite Hp, Hs, Hj. reflexivity.
Qed.

Lemma loopback_delivers : delivers loopback WEBSITE_METADATA.
Proof.
  intros data r store' Hrun Hstatus. unfold loopback. rewrite Hrun, Hstatus.
  eexists. repeat split.
Qed.

Lemma tool_call_succeeds_witness :
  update_website_metadata loopback "Orthopedics | Apollo" "Joint care in Chennai"
    "Orthopedics" "Meet the team."
  = inr (jsonify [("status", "success"); ("message", "Website content updated.")]).
Proof.
  refine (tool_call_succeeds loopback WEBSITE_METADATA _ _ _ _ _ _).
  - exact AppFacts.has_fields_initial.
  - exact loopback_delivers.
Defined.

End ToolFacts.

(** * More on the content API *)

Module StoreFacts.
Import App Props StoreShape.

Lemma update_lookup_field fields store key :
  has_fields store -> key ∈ content_fields ->
  (update_metadata (JObj fields) store).2 !! key = merged fields store key.
Proof.
  intros Hstore Hkey. unfold merged.
  destruct (decide (fields = ∅)) as [->|Hne].
  - unfold update_metadata.
    rewrite (proj2 (AppFacts.truthy_obj ∅) eq_refl). simpl.
    rewrite lookup_empty. reflexivity.
  - rewrite AppFacts.update_metadata_obj by assumption. simpl.
    pose proof Hstore as Hs. unfold has_fields in Hs.
    rewrite Forall_forall in Hs. destruct (Hs _ Hkey) as [old Hold].
    unfold content_fields in Hkey.
    repeat (apply elem_of_cons in Hkey as [->|Hkey]);
      [ | | | | by apply elem_of_nil in Hkey];
      repeat first [rewrite lookup_insert_eq | rewrite lookup_insert_ne by done];
      rewrite (lookup_total_correct _ _ _ Hold);
      destruct (fields !! _); simpl; congruence.
Qed.

Lemma update_lookup_other data store key :
  has_fields store -> key ∉ content_fields ->
  (update_metadata data store).2 !! key = store !! key.
Proof.
  intros Hstore Hkey.
  destruct (truthy data) eqn:Ht.
  - destruct data as [| b | z | x | str | items | fields];
      try (rewrite AppFacts.update_metadata_not_obj by (auto; discriminate);
           reflexivity).
    rewrite AppFacts.update_metadata_obj; [|exact Hstore|].
    + simpl. unfold content_fields in Hkey.
      rewrite !lookup_insert_ne; [reflexivity|..]; intros <-; apply Hkey; set_solver.
    + intros ->. rewrite (proj2 (AppFacts.truthy_obj ∅) eq_refl) in Ht. discriminate.
  - unfold update_metadata. rewrite Ht. reflexivity.
Qed.

(** The store after any request, key by key. *)
Lemma update_lookup fields store key :
  has_fields store ->
  (update_metadata (JObj fields) store).2 !! key
  = if decide (key ∈ content_fields) then merged fields store key else store !! key.
Proof.
  intros Hstore. destruct (decide (key ∈ content_fields)).
  - apply update_lookup_field; assumption.
  - apply update_lookup_other; assumption.
Qed.

(** X19: the response is the 200 success response exactly for a JSON object
    that is not empty; every other document leaves the store as it was. *)
Theorem update_metadata_succeeds_iff (data : json) (store : gmap string json) :
  has_fields store ->
  ((exists r, (update_metadata data store).1 = inr r /\ status_code r = 200) <->
   (exists fields, data = JObj fields /\ fields <> ∅)) /\
  ((forall fields, data = JObj fields -> fields = ∅) ->
   (update_metadata data store).2 = store).
Proof.
  intros Hstore.
  destruct (truthy data) eqn:Ht.
  - destruct data as [| b | z | x | str | items | fields].
    1-6: rewrite AppFacts.update_metadata_not_obj by (auto; discriminate);
      (split; [split; [intros (r & H & _); discriminate
                      | intros (f & H & _); discriminate] | reflexivity]).
    assert (fields <> ∅) as Hne.
    { intros ->. rewrite (proj2 (AppFacts.truthy_obj ∅) eq_refl) in Ht. discriminate. }
    rewrite AppFacts.update_metadata_obj by assumption. simpl. split.
    + split; [eauto | intros _; eexists; split; reflexivity].
    + intros Hall. exfalso. apply Hne. apply Hall. reflexivity.
  - unfold update_metadata. rewrite Ht. simpl. split; [|reflexivity]. split.
    + intros (r & H & Hs). inversion H; subst r. discriminate.
    + intros (fields & -> & Hne). apply AppFacts.truthy_obj in Ht. contradiction.
Qed.

Lemma update_metadata_succeeds_iff_witness :
  ((exists r, (update_metadata (JArr [JNull]) WEBSITE_METADATA).1 = inr r
              /\ status_code r = 200) <->
   (exists fields, JArr [JNull] = JObj fields /\ fields <> ∅)) /\
  ((forall fields, JArr [JNull] = JObj fields -> fields = ∅) ->
   (update_metadata (JArr [JNull]) WEBSITE_METADATA).2 = WEBSITE_METADATA).
Proof.
  refine (update_metadata_succeeds_iff (JArr [JNull]) WEBSITE_METADATA _).
  exact AppFacts.has_fields_initial.
Defined.

(** X20: no request adds or removes a key of the store, and a key of the
    request that is not one of the four fields is ignored. *)
Theorem update_metadata_keeps_keys (data : json) (store : gmap string json) :
  has_fields store ->
  dom (update_metadata data store).2 = dom store /\
  forall key, key ∉ content_fields ->
    (update_metadata data store).2 !! key = store !! key.
Proof.
  intros Hstore. split; [|intros key; apply update_lookup_other; exact Hstore].
  apply set_eq. intros key. rewrite !elem_of_dom.
  destruct (decide (key ∈ content_fields)) as [Hin|Hout].
  - pose proof (AppFacts.update_metadata_keeps_fields data store Hstore) as Hkeep.
    unfold has_fields in Hstore, Hkeep. rewrite Forall_forall in Hstore, Hkeep.
    split; auto.
  - rewrite update_lookup_other by assumption. reflexivity.
Qed.

Lemma update_metadata_keeps_keys_witness :
  dom (update_metadata (JObj {["title" := JStr "T"; "author" := JStr "A"]})
         WEBSITE_METADATA).2 = dom WEBSITE_METADATA /\
  forall key, key ∉ content_fields ->
    (update_metadata (JObj {["title" := JStr "T"; "author" := JStr "A"]})
       WEBSITE_METADATA).2 !! key = WEBSITE_METADATA !! key.
Proof.
  refine (update_metadata_keeps_keys _ WEBSITE_METADATA _).
  exact AppFacts.has_fields_initial.
Defined.

(** X21: write, then read: after a request the page shows, for each of the
    four fields, the request's value if it has one and the value shown
    before otherwise. *)
Theorem homepage_after_update (fields store : gmap string json) :
  has_fields store ->
  homepage (update_metadata (JObj fields) store).2
  = inr [default (store !!! "title") (fields !! "title");
         default (store !!! "description") (fields !! "description");
         default (store !!! "page_h1") (fields !! "page_h1");
         default (store !!! "page_paragraph") (fields !! "page_paragraph")].
Proof.
  intros Hstore.
  rewrite AppFacts.homepage_reads by (apply AppFacts.update_metadata_keeps_fields; exact Hstore).
  assert (forall key, key ∈ content_fields ->
            (update_metadata (JObj fields) store).2 !!! key
            = default (store !!! key) (fields !! key)) as Hread.
  { intros key Hkey. apply lookup_total_correct.
    rewrite update_lookup_field by assumption. unfold merged.
    destruct (fields !! key); [reflexivity|]. simpl.
    unfold has_fields in Hstore. rewrite Forall_forall in Hstore.
    destruct (Hstore _ Hkey) as [old Hold].
    rewrite (lookup_total_correct _ _ _ Hold). exact Hold. }
  unfold content_fields in Hread.
  rewrite !Hread by set_solver. reflexivity.
Qed.

Lemma homepage_after_update_witness :
  homepage (update_metadata (JObj {["page_h1" := JStr "Heart care"]}) WEBSITE_METADATA).2
  = inr [default (WEBSITE_METADATA !!! "title")
           (({["page_h1" := JStr "Heart care"]} : gmap string json) !! "title");
         default (WEBSITE_METADATA !!! "description")
           (({["page_h1" := JStr "Heart care"]} : gmap string json) !! "description");
         default (WEBSITE_METADATA !!! "page_h1")
           (({["page_h1" := JStr "Heart care"]} : gmap string json) !! "page_h1");
         default (WEBSITE_METADATA !!! "page_paragraph")
           (({["page_h1" := JStr "Heart care"]} : gmap string json) !! "page_paragraph")].
Proof.
  refine (homepage_after_update {["page_h1" := JStr "Heart care"]} WEBSITE_METADATA _).
  exact AppFacts.has_fields_initial.
Defined.

(** Given its four fields, the store has no part in the response. *)
Lemma update_response_any_store data store1 store2 :
  has_fields store1 -> has_fields store2 ->
  (update_metadata data store1).1 = (update_metadata data store2).1.
Proof.
  intros H1 H2.
  destruct (truthy data) eqn:Ht.
  - destruct data as [| b | z | x | str | items | fields];
      try (rewrite !AppFacts.update_metadata_not_obj by (auto; discriminate);
           reflexivity).
    assert (fields <> ∅) as Hne.
    { intros ->. rewrite (proj2 (AppFacts.truthy_obj ∅) eq_refl) in Ht. discriminate. }
    rewrite !AppFacts.update_metadata_obj by assumption. reflexivity.
  - unfold update_metadata. rewrite Ht. reflexivity.
Qed.

Lemma update_store_unchanged data store :
  has_fields store ->
  (forall fields, data <> JObj fields) ->
  (update_metadata data store).2 = store.
Proof.
  intros Hstore Hno.
  destruct (truthy data) eqn:Ht.
  - rewrite AppFacts.update_metadata_not_obj by assumption. reflexivity.
  - unfold update_metadata. rewrite Ht. reflexivity.
Qed.

(** X22: sending the same request twice changes nothing more than sending it
    once: the same response again, and the store of the first time. *)
Theorem update_metadata_idempotent (data : json) (store : gmap string json) :
  has_fields store ->
  update_metadata data (update_metadata data store).2 = update_metadata data store.
Proof.
  intros Hstore.
  pose proof (AppFacts.update_metadata_keeps_fields data store Hstore) as Hkeep.
  apply injective_projections.
  - apply update_response_any_store; assumption.
  - destruct data as [| b | z | x | str | items | fields];
      try (apply update_store_unchanged; [exact Hkeep | discriminate]).
    apply map_eq. intros key.
    rewrite (update_lookup fields _ key Hkeep).
    destruct (decide (key ∈ content_fields)) as [Hin|Hout]; [|reflexivity].
    rewrite (update_lookup_field fields store key Hstore Hin).
    unfold merged. rewrite (update_lookup_field fields store key Hstore Hin).
    unfold merged. destruct (fields !! key); reflexivity.
Qed.

Lemma update_metadata_idempotent_witness :
  update_metadata (JObj {["title" := JStr "T"]})
    (update_metadata (JObj {["title" := JStr "T"]}) WEBSITE_METADATA).2
  = update_metadata (JObj {["title" := JStr "T"]}) WEBSITE_METADATA.
Proof.
  refine (update_metadata_idempotent (JObj {["title" := JStr "T"]}) WEBSITE_METADATA _).
  exact AppFacts.has_fields_initial.
Defined.

(** X23: the last write wins, field by field: two requests in a row leave the
    store that the one request with the fields of both leaves, the second
    request's value taken where both have the field. *)
Theorem update_metadata_last_write_wins (first second store : gmap string json) :
  has_fields store ->
  (update_metadata (JObj second) (update_metadata (JObj first) store).2).2
  = (update_metadata (JObj (second ∪ first)) store).2.
Proof.
  intros Hstore.
  pose proof (AppFacts.update_metadata_keeps_fields (JObj first) store Hstore) as Hkeep.
  apply map_eq. intros key.
  rewrite (update_lookup second _ key Hkeep), (update_lookup (second ∪ first) store key Hstore).
  destruct (decide (key ∈ content_fields)) as [Hin|Hout].
  - unfold merged. rewrite (update_lookup_field first store key Hstore Hin).
    unfold merged. rewrite lookup_union.
    destruct (second !! key), (first !! key); reflexivity.
  - apply update_lookup_other; assumption.
Qed.

Lemma update_metadata_last_write_wins_witness :
  (update_metadata (JObj {["title" := JStr "B"]})
     (update_metadata (JObj {["title" := JStr "A"; "page_h1" := JStr "H"]})
        WEBSITE_METADATA).2).2
  = (update_metadata
       (JObj ({["title" := JStr "B"]} ∪ {["title" := JStr "A"; "page_h1" := JStr "H"]}))
       WEBSITE_METADATA).2.
Proof.
  refine (update_metadata_last_write_wins
            {["title" := JStr "A"; "page_h1" := JStr "H"]} {["title" := JStr "B"]}
            WEBSITE_METADATA _).
  exact AppFacts.has_fields_initial.
Defined.

End StoreFacts.

(** * Every journey shape is an outcome *)

Module GaReach.
Import PyTime Db Props Shape.

Lemma pick_page_run cfg page_path page_title :
  page_ok cfg page_path page_title ->
  exists d, forall rest, pick_page cfg (d :: rest) = Ok (page_path, page_title) rest.
Proof.
  intros [Hin Hget]. apply list_elem_of_lookup in Hin as [i Hi].
  exists (DChoice (length (keys (PAGE_MAP cfg))) i). intros rest.
  unfold pick_page. apply bind_Ok. exists page_path, rest. split.
  { apply choice_Ok. eauto. }
  apply bind_Ok. exists page_title, rest. split.
  { apply lift_Ok. auto. }
  apply mret_Ok. auto.
Qed.

Lemma add_seconds_run dt s :
  0 <= s <= 120 -> 0 <= dt -> dt + s <= max_second ->
  add dt (timedelta 0 s) = inr (dt + s).
Proof.
  intros Hs Hdt Hmax. unfold add, timedelta.
  replace (0 * 86400 + s) with s by lia.
  rewrite Z.div_small by lia. simpl.
  replace (0 <=? dt + s) with true by (symmetry; apply Z.leb_le; lia).
  replace (dt + s <=? max_second) with true by (symmetry; apply Z.leb_le; lia).
  reflexivity.
Qed.

Lemma elapsed_nonneg cfg steps : Forall (step_ok cfg) steps -> 0 <= elapsed steps.
Proof. intros H. pose proof (GaShape.elapsed_bounds cfg steps H). lia. Qed.

(** The draws that make the loop add the page views of [steps]. *)
Lemma additional_hits_run cfg steps :
  Forall (step_ok cfg) steps ->
  exists tp, forall k hits last rest,
    0 <= last -> last + elapsed steps <= max_second ->
    for_each (Z.of_nat <$> seq k (length steps)) (additional_hit cfg)
      (hits, last) (tp ++ rest)
    = Ok (hits ++ page_views last (Z.of_nat k + 2) steps, last + elapsed steps) rest.
Proof.
  induction 1 as [|[[s p] ti] steps [Hs Hp] Hok [tp IH]].
  - exists []. intros k hits last rest _ _. simpl.
    rewrite app_nil_r, Z.add_0_r. reflexivity.
  - simpl in Hs. destruct (pick_page_run cfg p ti Hp) as [d Hd].
    exists (DRandint 30 120 s :: d :: tp). intros k hits last rest Hlast Hmax.
    pose proof (elapsed_nonneg cfg steps Hok) as Hnn.
    cbn [length seq fmap list_fmap elapsed page_views] in *.
    change (for_each (?x :: ?xs) ?body ?st) with (s' ← body x st; for_each xs body s').
    apply bind_Ok.
    exists (hits ++ [page_hit (Z.of_nat k + 2) (last + s) p ti], last + s), (tp ++ rest).
    split.
    + unfold additional_hit. apply bind_Ok. exists s, (d :: tp ++ rest). split.
      { apply randint_Ok. split; [reflexivity | lia]. }
      apply bind_Ok. exists (last + s), (d :: tp ++ rest). split.
      { apply lift_Ok. split; [|reflexivity]. apply add_seconds_run; lia. }
      apply bind_Ok. exists (p, ti), (tp ++ rest). split; [apply Hd|].
      apply mret_Ok. auto.
    + rewrite (IH (S k) _ (last + s) rest) by lia.
      rewrite <- app_assoc. simpl.
      replace (Z.of_nat (S k) + 2) with (Z.of_nat k + 2 + 1) by lia.
      replace (last + s + elapsed steps) with (last + (s + elapsed steps)) by lia.
      reflexivity.
Qed.

(** X24: every journey of one of the three shapes is what [journey] returns on
    some outcome of the random source, as long as the session ends before
    the last second of year 9999. *)
Theorem journey_shape_reachable cfg start hits is_bounce time_on_site :
  0 <= start -> start + 510 <= max_second ->
  journey_shape cfg start hits is_bounce time_on_site ->
  exists t, journey cfg start t = Ok (hits, is_bounce, time_on_site) [].
Proof.
  intros Hstart Hmax Hshape.
  inversion Hshape as [p ti tos Hp Htos | p ti steps Hp Hlen Hok
                       | p ti steps s Hp Hlen Hok Hs]; subst.
  - destruct (pick_page_run cfg p ti Hp) as [d Hd].
    exists [d; DRandom 0.5%float; DRandint 5 45 time_on_site].
    unfold journey. apply bind_Ok. eexists (p, ti), _. split; [apply Hd|].
    apply bind_Ok. exists 0.5%float, [DRandint 5 45 time_on_site].
    split; [reflexivity|].
    change (0.5 <? 0.65)%float with true. cbn [negb].
    apply bind_Ok. exists time_on_site, []. split.
    { apply randint_Ok. auto. }
    apply mret_Ok. auto.
  - destruct (pick_page_run cfg p ti Hp) as [d Hd].
    destruct (additional_hits_run cfg steps Hok) as [tp Htp].
    pose proof (GaShape.elapsed_bounds cfg steps Hok) as Hb.
    exists (d :: DRandom 0.7%float :: DRandint 1 4 (Z.of_nat (length steps))
              :: tp ++ [DRandom 0.5%float]).
    unfold journey. apply bind_Ok. eexists (p, ti), _. split; [apply Hd|].
    apply bind_Ok. eexists 0.7%float, _. split; [reflexivity|].
    change (0.7 <? 0.65)%float with false. cbn [negb].
    apply bind_Ok. eexists (Z.of_nat (length steps)), _. split.
    { apply randint_Ok. split; [reflexivity | lia]. }
    apply bind_Ok. eexists _, _. split.
    { unfold range. rewrite Nat2Z.id. apply (Htp 0%nat); lia. }
    apply bind_Ok. eexists (_, _), []. split.
    { unfold maybe_conversion. apply bind_Ok. eexists 0.5%float, _.
      split; [reflexivity|]. change (0.5 <? 0.2)%float with false.
      apply mret_Ok. auto. }
    apply mret_Ok. split; [|reflexivity]. unfold seconds_between. simpl.
    do 2 f_equal. lia.
  - destruct (pick_page_run cfg p ti Hp) as [d Hd].
    destruct (additional_hits_run cfg steps Hok) as [tp Htp].
    pose proof (GaShape.elapsed_bounds cfg steps Hok) as Hb.
    exists (d :: DRandom 0.7%float :: DRandint 1 4 (Z.of_nat (length steps))
              :: tp ++ [DRandom 0.1%float; DRandint 10 30 s]).
    unfold journey. apply bind_Ok. eexists (p, ti), _. split; [apply Hd|].
    apply bind_Ok. eexists 0.7%float, _. split; [reflexivity|].
    change (0.7 <? 0.65)%float with false. cbn [negb].
    apply bind_Ok. eexists (Z.of_nat (length steps)), _. split.
    { apply randint_Ok. split; [reflexivity | lia]. }
    apply bind_Ok. eexists _, _. split.
    { unfold range. rewrite Nat2Z.id. apply (Htp 0%nat); lia. }
    apply bind_Ok. eexists (_, _), []. split.
    { unfold maybe_conversion. apply bind_Ok. eexists 0.1%float, _.
      split; [reflexivity|]. change (0.1 <? 0.2)%float with true.
      apply bind_Ok. eexists s, _. split.
      { apply randint_Ok. split; [reflexivity | lia]. }
      apply bind_Ok. eexists _, _. split.
      { apply lift_Ok. split; [|reflexivity]. apply add_seconds_run; lia. }
      apply mret_Ok. split; reflexivity. }
    apply mret_Ok. split; [|reflexivity]. unfold seconds_between.
    change (Z.of_nat 0 + 2) with 2.
    rewrite length_app, GaShape.length_page_views. cbn [length app].
    replace (Z.of_nat (1 + length steps) + 1) with (Z.of_nat (length steps) + 2) by lia.
    replace (start + elapsed steps + s - start) with (elapsed steps + s) by lia.
    reflexivity.
Qed.

(** The longest session: four more page views 120 seconds apart and the
    conversion 30 seconds later, six hits and 510 seconds on site. *)
Lemma journey_shape_reachable_witness :
  exists t,
    journey Samples.one_day (START_DATE + 10) t
    = Ok (page_hit 1 (START_DATE + 10) "/" "Homepage | Apollo Hospitals"
            :: page_views (START_DATE + 10) 2
                 (replicate 4 (120, "/", "Homepage | Apollo Hospitals"))
            ++ [conversion_hit 6 (START_DATE + 10 + 510)],
          false, 510) [].
Proof.
  assert (page_ok Samples.one_day "/" "Homepage | Apollo Hospitals") as Hp.
  { split; [left | reflexivity]. }
  refine (journey_shape_reachable Samples.one_day (START_DATE + 10) _ false 510 _ _
            (shape_converted Samples.one_day (START_DATE + 10)
               "/" "Homepage | Apollo Hospitals"
               (replicate 4 (120, "/", "Homepage | Apollo Hospitals")) 30 Hp _ _ _)).
  - vm_compute. discriminate.
  - vm_compute. discriminate.
  - simpl. lia.
  - repeat constructor; simpl; try lia; apply Hp.
  - lia.
Defined.

End GaReach.
